(** * zipper/dispatch.go: the stream-dispatch pipeline of the YoMo zipper

    A shallow embedding of [src/zipper/dispatch.go].  Every goroutine body is
    a function into a small trace monad: the observable operations of the body
    (channel sends, [close], [cancel()], QUIC sub-stream calls, [go]
    statements, log lines) are recorded in program order, and the result says
    whether the body returned, blocked for ever or panicked.  What the
    environment answers (the outcome of [OpenUniStream], of [Write], of every
    [core.ParseFrame], of every [select]) is an input of the model.

    The channel of the source reader is written and closed by the reader
    alone: a send on it is recorded when the body executes it; how long it
    waits for room in the channel is left to the scheduler.  The output
    channel of a stage is written by the send tasks and the read units of
    the stage while the goroutine of the pipe may close it and the next
    stage may have stopped taking from it, so what a send on it meets is an
    input too: the send is taken, or the channel is closed (the send
    panics), or the channel is full and stays full (the send never
    returns).  Log lines keep the message text, without decoration and
    without the key-value arguments. *)

From Stdlib Require Import ZArith Strings.Byte.
From stdpp Require Import base option list strings gmap.

Local Open Scope string_scope.
Local Open Scope list_scope.

(** ** Collaborators: frames *)

Module frame.

(** Modelled from the spec: package [internal/frame] is not part of the
    sources.  A frame carries a type tag; exactly the frames whose tag is
    [TagOfDataFrame] are [*frame.DataFrame] values, every other tag
    (handshake, ping, ...) is told apart by a number. *)
Inductive Type_ : Type :=
| TagOfDataFrame
| TagOfControl (k : N).

Definition Type_eqb (a b : Type_) : bool :=
  match a, b with
  | TagOfDataFrame, TagOfDataFrame => true
  | TagOfControl i, TagOfControl j => N.eqb i j
  | _, _ => false
  end.

(** A data frame: the transaction id and the payload ("carriage"). *)
Record DataFrame : Type := mkDataFrame {
  TransactionID : string;
  GetCarriage : list byte
}.

(** The interface value [frame.Frame]. *)
Inductive Frame : Type :=
| FData (d : DataFrame)
| FControl (k : N).

Definition Type_of (f : Frame) : Type_ :=
  match f with
  | FData _ => TagOfDataFrame
  | FControl k => TagOfControl k
  end.

(** The type assertion of [f] to a pointer to [frame.DataFrame]; [None] is a run-time panic. *)
Definition as_DataFrame (f : Frame) : option DataFrame :=
  match f with
  | FData d => Some d
  | FControl _ => None
  end.

End frame.

(** ** Collaborators: QUIC sessions and streams *)

Module quic.

(** A send sub-stream: its identity and what [Write] answers ([None] is a
    nil error). *)
Record SendStream : Type := mkSendStream {
  send_id : nat;
  Write : list byte -> option string
}.

(** One answer of [core.ParseFrame] on a stream. *)
Inductive ParseResult : Type :=
| ParseOk (f : frame.Frame)
| ParseErr (err : string).

(** A stream that is read: the successive answers of [core.ParseFrame].
    When the list is used up no further byte arrives and the stream stays
    open, so the next read blocks for ever. *)
Definition ReceiveStream : Type := list ParseResult.

(** Modelled from the spec: package [core/quic] is not part of the sources.
    A live session is what its one call of [OpenUniStream] answers (a send
    sub-stream or an error) and the successive answers of
    [AcceptUniStream] (a sub-stream to read or an error). *)
Record Conn : Type := mkConn {
  conn_id : nat;
  OpenUniStream : SendStream + string;
  AcceptUniStream : list (ReceiveStream + string)
}.

(** The interface value [quic.Session]; [None] is nil. *)
Definition Session : Type := option Conn.

End quic.

(** ** The trace monad *)

Module zipper.

Import frame.

(** Channels of data frames are known by a number. *)
Definition Chan : Type := nat.

(** [CancelFunc]: the replica's cancellation capability, known by a number. *)
Definition CancelFunc : Type := nat.

(** [streamFuncWithCancel]: one replica of a stage. *)
Record StreamFunc : Type := mkStreamFunc {
  session : quic.Session;
  cancel : CancelFunc
}.

(** [GetStreamFunc]: the stage descriptor, [func() (string, []streamFuncWithCancel)]. *)
Definition GetStreamFunc : Type := unit -> string * list StreamFunc.

Inductive Level : Type := Debug | Info | Error | Printf.

(** What a [go] statement starts. *)
Inductive Task : Type :=
| GoSendDataToStreamFn (name : string) (s : quic.Session) (c : CancelFunc)
                       (data : DataFrame) (next : Chan)
| GoDispatchToStreamFn (sfn : GetStreamFunc) (item : DataFrame) (next : Chan)
| GoAcceptLoop (name : string) (s : quic.Conn) (next : Chan)
| GoReadDataFromStreamFn (name : string) (stream : quic.ReceiveStream) (next : Chan).

Inductive event : Type :=
| EvLog (lvl : Level) (msg : string)
| EvChanSend (ch : Chan) (d : DataFrame)        (* ch <- d *)
| EvChanClose (ch : Chan)                       (* close(ch) *)
| EvCancel (c : CancelFunc)                     (* cancel() *)
| EvNewSpan (label : string) (span : option nat)(* tracing.NewSpanFromData *)
| EvSpanEnd (span : nat)                        (* span.End() *)
| EvOpenUniStream (conn : nat)                  (* session.OpenUniStream() *)
| EvWrite (stream : nat) (bytes : list byte)    (* stream.Write(bytes) *)
| EvStreamClose (stream : nat)                  (* stream.Close() *)
| EvParseFrame (r : quic.ParseResult)           (* core.ParseFrame(stream) *)
| EvAtomicAdd (old new : Z)                     (* atomic.AddUint32 *)
| EvGo (t : Task).                              (* go t *)

(** How a body ends. *)
Inductive outcome (A : Type) : Type :=
| Ret (a : A)
| Block
| Panic (msg : string).
Arguments Ret {A} a.
Arguments Block {A}.
Arguments Panic {A} msg.

Definition M (A : Type) : Type := list event * outcome A.

Definition ret {A} (a : A) : M A := ([], Ret a).

Definition bind {A B} (m : M A) (k : A -> M B) : M B :=
  match m with
  | (t, Ret a) => let '(t', o) := k a in ((t ++ t')%list, o)
  | (t, Block) => (t, Block)
  | (t, Panic msg) => (t, Panic msg)
  end.

Definition emit (e : event) : M unit := ([e], Ret tt).
Definition block {A} : M A := ([], Block).
Definition panic {A} (msg : string) : M A := ([], Panic msg).

(** [defer]: the deferred calls run when the body returns or panics. *)
Definition defer {A} (d : list event) (m : M A) : M A :=
  match m with
  | (t, Block) => (t, Block)
  | (t, o) => ((t ++ d)%list, o)
  end.

Declare Scope go_scope.
Delimit Scope go_scope with go.
Notation "x <- m ; k" := (bind m (fun x => k))
  (at level 100, m at next level, right associativity) : go_scope.
Notation "m ;; k" := (bind m (fun _ => k))
  (at level 100, right associativity) : go_scope.
Local Open Scope go_scope.

Definition log (lvl : Level) (msg : string) : M unit := emit (EvLog lvl msg).
Definition go (t : Task) : M unit := emit (EvGo t).

(** What a send on the output channel of a stage meets: the channel takes
    the value; or the channel has been closed (by the deferred [close] of
    the pipe's goroutine); or the channel is full and nobody takes from it
    any more. *)
Inductive ChanStatus : Type :=
| ChanReady
| ChanClosed
| ChanFull.

(** [ch <- d] on the output channel of a stage. *)
Definition chan_send (st : ChanStatus) (ch : Chan) (d : DataFrame) : M unit :=
  match st with
  | ChanReady => emit (EvChanSend ch d)
  | ChanClosed => panic "send on closed channel"
  | ChanFull => block
  end.

(** ** Observations on a trace *)

Definition sends (t : list event) : list (Chan * DataFrame) :=
  omap (fun e => match e with EvChanSend ch d => Some (ch, d) | _ => None end) t.
Definition closes (t : list event) : list Chan :=
  omap (fun e => match e with EvChanClose ch => Some ch | _ => None end) t.
Definition cancels (t : list event) : list CancelFunc :=
  omap (fun e => match e with EvCancel c => Some c | _ => None end) t.
Definition opens (t : list event) : list nat :=
  omap (fun e => match e with EvOpenUniStream c => Some c | _ => None end) t.
Definition writes (t : list event) : list (nat * list byte) :=
  omap (fun e => match e with EvWrite s b => Some (s, b) | _ => None end) t.
Definition stream_closes (t : list event) : list nat :=
  omap (fun e => match e with EvStreamClose s => Some s | _ => None end) t.
Definition parsed (t : list event) : list quic.ParseResult :=
  omap (fun e => match e with EvParseFrame r => Some r | _ => None end) t.
Definition counter_ops (t : list event) : list (Z * Z) :=
  omap (fun e => match e with EvAtomicAdd o n => Some (o, n) | _ => None end) t.
Definition spawned (t : list event) : list Task :=
  omap (fun e => match e with EvGo k => Some k | _ => None end) t.
Definition logged (t : list event) : list (Level * string) :=
  omap (fun e => match e with EvLog l m => Some (l, m) | _ => None end) t.

(** ** What a blocking [select] observes *)

(** One round of [select { case <-ctx.Done(): ...; case x, ok := <-ch: ... }]:
    the context is done, a value arrives, or the channel is closed
    ([ok] is false).  A list of rounds that is used up means that nothing
    further ever arrives: the [select] blocks for ever. *)
Inductive Select (A : Type) : Type :=
| SelDone
| SelRecv (x : A)
| SelClosed.
Arguments SelDone {A}.
Arguments SelRecv {A} x.
Arguments SelClosed {A}.

(** A [select] with a [default] branch only polls the context: [ctx k] says
    whether [ctx.Done()] is closed at the [k]-th poll of the goroutine. *)
Definition Context : Type := nat -> bool.
Definition Background : Context := fun _ => false.

(** ** The session directory *)

(** A [chan quic.Session] made by [make]: its identity and its capacity. *)
Record SessionChan : Type := mkSessionChan {
  chan_id : nat;
  chan_cap : nat
}.

(** Modelled from the spec: the declaration of [newStreamFuncSessionCache]
    is not part of the sources.  It is the process-wide session directory, a
    [sync.Map] from stage names to session queues; next to it the state
    keeps the number of session queues made so far. *)
Record Directory : Type := mkDirectory {
  newStreamFuncSessionCache : gmap string SessionChan;
  made : nat
}.

(** [make(chan quic.Session, cap)] *)
Definition make_chan (cap : nat) (d : Directory) : SessionChan * Directory :=
  (mkSessionChan (made d) cap,
   mkDirectory (newStreamFuncSessionCache d) (S (made d))).

(** [sync.Map.LoadOrStore(key, value)]: the existing value for the key if
    present, otherwise it stores and returns the given value; the flag is
    true when the value was loaded. *)
Definition LoadOrStore {V} (m : gmap string V) (key : string) (value : V)
    : V * bool * gmap string V :=
  match m !! key with
  | Some actual => (actual, true, m)
  | None => (value, false, <[key := value]> m)
  end.

(** ** dispatch.go *)

Section Dispatch.

(** [data.Encode()] of package [internal/frame]. *)
Variable Encode : DataFrame -> list byte.
(** [tracing.NewSpanFromData(carriage, name, label)]; [None] is a nil span. *)
Variable NewSpanFromData : string -> string -> string -> option nat.
(** The constant [quic.ErrConnectionClosed]. *)
Variable ErrConnectionClosed : string.

Definition bufferSize : nat := 100.

Definition span_End (span : option nat) : list event :=
  match span with
  | Some sp => [EvSpanEnd sp]
  | None => []
  end.

(** [sendDataToStreamFn] send the data to a specified stream-fn by QUIC
    stream.  [st] is what a send on [next] meets when this task reaches
    it. *)
Definition sendDataToStreamFn (st : ChanStatus) (name : string) (s : quic.Session)
    (cancel : CancelFunc) (data : DataFrame) (next : Chan) : M unit :=
  match s with
  | None =>
      log Error "[MergeStreamFunc] the session of the stream-function is nil" ;;
      chan_send st next data ;;
      emit (EvCancel cancel)
  | Some conn =>
      let label := "zipper-send-to-" +:+ name in
      let span := NewSpanFromData (String.string_of_list_byte (GetCarriage data)) name label in
      emit (EvNewSpan label span) ;;
      defer (span_End span)
        (emit (EvOpenUniStream (quic.conn_id conn)) ;;
         match quic.OpenUniStream conn with
         | inr err =>
             log Error "[MergeStreamFunc] session.OpenUniStream failed" ;;
             chan_send st next data ;;
             emit (EvCancel cancel)
         | inl stream =>
             emit (EvWrite (quic.send_id stream) (Encode data)) ;;
             emit (EvStreamClose (quic.send_id stream)) ;;
             match quic.Write stream (Encode data) with
             | Some err =>
                 log Error "[MergeStreamFunc] YoMo-Zipper sent data to `stream-fn` failed." ;;
                 emit (EvCancel cancel)
             | None =>
                 log Debug "[MergeStreamFunc] YoMo-Zipper sent data to `stream-fn`."
             end
         end)
  end.

(** [atomic.AddUint32(addr, delta)]: the new value, wrapping at 2^32. *)
Definition AddUint32 (old delta : Z) : Z := ((old + delta) mod 2 ^ 32)%Z.

(** [funcs[i]] for an [int] index; out of range is a run-time panic. *)
Definition index {A} (l : list A) (i : Z) : M A :=
  if ((0 <=? i) && (i <? Z.of_nat (length l)))%Z
  then match l !! Z.to_nat i with
       | Some x => ret x
       | None => panic "index out of range"
       end
  else panic "index out of range".

(** [dispatchToStreamFn] dispatch the data from upstream to next stream-fn
    by Round Robin.  [int] is 64 bits wide, so [int(n)] is [n]; [%] is
    Go's truncated remainder. *)
Definition dispatchToStreamFn (sfn : GetStreamFunc) (data : DataFrame)
    (next : Chan) : M unit :=
  let nextNum : Z := 0%Z in
  let '(name, funcs) := sfn tt in
  let len := Z.of_nat (length funcs) in
  if (len =? 0)%Z then
    log Info "no available sessions in stream fn."
  else if (len =? 1)%Z then
    f <- index funcs 0 ;
    go (GoSendDataToStreamFn name (session f) (cancel f) data next)
  else
    let n := AddUint32 nextNum 1 in
    emit (EvAtomicAdd nextNum n) ;;
    let i := Z.rem (n - 1) len in
    log Debug "[MergeStreamFunc] dispatch data to next stream-function" ;;
    f <- index funcs i ;
    go (GoSendDataToStreamFn name (session f) (cancel f) data next).

(** The type assertion on a frame, as a step of a body. *)
Definition assert_DataFrame (f : Frame) : M DataFrame :=
  match as_DataFrame f with
  | Some d => ret d
  | None => panic "interface conversion: frame.Frame is not *frame.DataFrame"
  end.

(** The loop of [readDataFromSource], at the [k]-th poll of the context. *)
Fixpoint sourceLoop (ctx : Context) (k : nat) (stream : quic.ReceiveStream)
    (next : Chan) {struct stream} : M unit :=
  if ctx k then ret tt
  else
    match stream with
    | [] => block
    | r :: rest =>
        emit (EvParseFrame r) ;;
        match r with
        | quic.ParseErr err => log Error "Parse the frame failed"
        | quic.ParseOk f =>
            match Type_of f with
            | TagOfDataFrame =>
                dataFrame <- assert_DataFrame f ;
                log Debug "Receive data frame from source." ;;
                emit (EvChanSend next dataFrame)
            | _ => log Debug "Only dispatch data frame to stream functions."
            end ;;
            sourceLoop ctx (S k) rest next
        end
    end.

(** [readDataFromSource] reads data from source QUIC stream: the body of
    the goroutine it starts.  The function itself makes [next] with
    capacity [bufferSize], starts this body and returns [next]. *)
Definition readDataFromSource (ctx : Context) (stream : quic.ReceiveStream)
    (next : Chan) : M unit :=
  defer [EvChanClose next] (sourceLoop ctx 0 stream next).

(** The inner goroutine of [pipeStreamFn]: send the stream to flow
    (zipper -> flow/sink). *)
Fixpoint pipeStreamFn_send (upstream : list (Select DataFrame))
    (sfn : GetStreamFunc) (next : Chan) : M unit :=
  match upstream with
  | [] => block
  | SelDone :: _ => ret tt
  | SelClosed :: _ => ret tt
  | SelRecv item :: rest =>
      go (GoDispatchToStreamFn sfn item next) ;;
      pipeStreamFn_send rest sfn next
  end.

(** The loop of [receiveResponseFromStreamFn] on the session queue. *)
Fixpoint receiveLoop (ch : list (Select quic.Session)) (name : string)
    (next : Chan) : M unit :=
  match ch with
  | [] => block
  | SelDone :: _ => ret tt
  | SelClosed :: _ => ret tt
  | SelRecv None :: rest => receiveLoop rest name next
  | SelRecv (Some conn) :: rest =>
      go (GoAcceptLoop name conn next) ;;
      receiveLoop rest name next
  end.

(** Lines 159-160: the session queue of the stage. *)
Definition sessionQueue (sfn : GetStreamFunc) (d : Directory)
    : SessionChan * Directory :=
  let '(name, _) := sfn tt in
  let '(fresh, d1) := make_chan 5 d in
  let '(ch, _, cache) := LoadOrStore (newStreamFuncSessionCache d1) name fresh in
  (ch, mkDirectory cache (made d1)).

(** [receiveResponseFromStreamFn] receives the response from stream-fn.
    [deliveries q] is what the [select] observes, round after round, when
    it listens on the queue [q]. *)
Definition receiveResponseFromStreamFn
    (deliveries : SessionChan -> list (Select quic.Session))
    (sfn : GetStreamFunc) (next : Chan) (d : Directory) : Directory * M unit :=
  let '(ch, d') := sessionQueue sfn d in
  (d', receiveLoop (deliveries ch) (sfn tt).1 next).

(** The goroutine started for every session: [LOOP_ACCP_STREAM]. *)
Fixpoint acceptLoop (name : string) (accepts : list (quic.ReceiveStream + string))
    (next : Chan) : M unit :=
  match accepts with
  | [] => block
  | inr err :: _ =>
      if String.eqb err ErrConnectionClosed then ret tt
      else log Error "[MergeStreamFunc] session.AcceptUniStream(ctx) failed"
  | inl stream :: rest =>
      go (GoReadDataFromStreamFn name stream next) ;;
      acceptLoop name rest next
  end.

(** The loop of [readDataFromStreamFn], at the [k]-th poll of the context.
    [st] is what the send on [next] meets when this unit reaches it. *)
Fixpoint readLoop (st : ChanStatus) (ctx : Context) (k : nat) (name : string)
    (stream : quic.ReceiveStream) (next : Chan) {struct stream} : M unit :=
  if ctx k then ret tt
  else
    log Printf "waiting read next.." ;;
    match stream with
    | [] => block
    | r :: rest =>
        emit (EvParseFrame r) ;;
        match r with
        | quic.ParseErr err =>
            log Debug "[MergeStreamFunc] YoMo-Zipper received data from `stream-fn` failed."
        | quic.ParseOk f =>
            log Debug "[MergeStreamFunc] YoMo-Zipper received data from `stream-fn`." ;;
            if negb (Type_eqb (Type_of f) TagOfDataFrame) then
              log Debug "[MergeStreamFunc] YoMo-Zipper received frame from `stream-fn`, but the frame type is not a DataFrame." ;;
              readLoop st ctx (S k) name rest next
            else
              data <- assert_DataFrame f ;
              log Printf "receive complete data" ;;
              let label := "zipper-receive-from-" +:+ name in
              let span := NewSpanFromData (String.string_of_list_byte (GetCarriage data)) name label in
              emit (EvNewSpan label span) ;;
              defer (span_End span) (chan_send st next data)
        end
    end.

(** [readDataFromStreamFn] reads the data from stream-fn. *)
Definition readDataFromStreamFn (st : ChanStatus) (ctx : Context) (name : string)
    (stream : quic.ReceiveStream) (next : Chan) : M unit :=
  readLoop st ctx 0 name stream next.

(** What a started task does; [ctx] is the context of the pipeline as
    the task polls it and [status t] is what the task [t] meets when it
    sends on its output channel. *)
Definition run_task (status : Task -> ChanStatus) (ctx : Context) (t : Task) : M unit :=
  match t with
  | GoSendDataToStreamFn name s c data next =>
      sendDataToStreamFn (status t) name s c data next
  | GoDispatchToStreamFn sfn item next => dispatchToStreamFn sfn item next
  | GoAcceptLoop name conn next => acceptLoop name (quic.AcceptUniStream conn) next
  | GoReadDataFromStreamFn name stream next =>
      readDataFromStreamFn (status t) ctx name stream next
  end.

(** The tasks started by the tasks a trace starts, in the order of
    their [go]. *)
Definition spawned_by_tasks (status : Task -> ChanStatus) (ctx : Context)
    (t : list event) : list Task :=
  k ← spawned t; spawned (run_task status ctx k).1.

End Dispatch.

End zipper.

(** * Properties *)

Import frame zipper.
Local Open Scope go_scope.

(** The data frames among the answers of [core.ParseFrame], in order. *)
Definition data_frames (rs : list quic.ParseResult) : list DataFrame :=
  omap (fun r => match r with
                 | quic.ParseOk f => as_DataFrame f
                 | quic.ParseErr _ => None
                 end) rs.

(** The line the source reader logs for one answer of [core.ParseFrame]. *)
Definition source_log (r : quic.ParseResult) : Level * string :=
  match r with
  | quic.ParseOk (FData _) => (Debug, "Receive data frame from source.")
  | quic.ParseOk (FControl _) => (Debug, "Only dispatch data frame to stream functions.")
  | quic.ParseErr _ => (Error, "Parse the frame failed")
  end.

(** The reply read unit as the specification words it, at one input: at
    most one frame is parsed, and when the first parsed frame is not a data
    frame the unit returns without sending. *)
Definition single_shot_spec (r : M unit) (stream : quic.ReceiveStream) : Prop :=
  length (parsed r.1) <= 1
  /\ match stream with
     | quic.ParseOk (FControl _) :: _ => r.2 = Ret tt /\ sends r.1 = []
     | _ => True
     end.

(** A reply sub-stream that carries [ks] frames that are not data frames. *)
Definition control_frames (ks : list N) : quic.ReceiveStream :=
  (fun k => quic.ParseOk (FControl k)) <$> ks.

(** The directory of a process that has just started. *)
Definition emptyDirectory : Directory := mkDirectory ∅ 0.

(** The directory after reply receivers were started, one after the other,
    for the stages [sfns]. *)
Definition receivers (sfns : list GetStreamFunc) (d : Directory) : Directory :=
  foldl (fun d sfn => (sessionQueue sfn d).2) d sfns.

(** The sessions that are not nil among the deliveries of a session queue,
    up to the first round in which the context is done or the queue is
    closed. *)
Fixpoint live_sessions (ch : list (Select quic.Session)) : list quic.Conn :=
  match ch with
  | SelRecv (Some conn) :: rest => conn :: live_sessions rest
  | SelRecv None :: rest => live_sessions rest
  | _ => []
  end.

(** Whether the deliveries of a queue end the receive loop: in some round
    the context is done or the queue is closed. *)
Definition ends_loop (ch : list (Select quic.Session)) : bool :=
  existsb (fun s => match s with SelRecv _ => false | _ => true end) ch.

(** What reaches a replica when the send path runs for it: the encoded
    item, on the sub-stream its session opens, when there is one. *)
Definition written_to_replica (Encode : DataFrame -> list byte)
    (s : quic.Session) (data : DataFrame) : list (nat * list byte) :=
  match s with
  | Some conn =>
      match quic.OpenUniStream conn with
      | inl stream => [(quic.send_id stream, Encode data)]
      | inr _ => []
      end
  | None => []
  end.

(** The replica cannot be reached: its session is nil or its
    [OpenUniStream] answers an error. *)
Definition unreachable (s : quic.Session) : bool :=
  match s with
  | None => true
  | Some conn =>
      match quic.OpenUniStream conn with
      | inr _ => true
      | inl _ => false
      end
  end.

(** Collaborators used to run the model on concrete inputs. *)
Definition allReady (t : Task) : ChanStatus := ChanReady.
Definition allClosed (t : Task) : ChanStatus := ChanClosed.
Definition carriageEncode (d : DataFrame) : list byte := GetCarriage d.
Definition noSpan (carriage name label : string) : option nat := None.
Definition oneSpan (carriage name label : string) : option nat := Some 7.
Definition connectionClosed : string := "Application error 0x0".

Definition frame_a : DataFrame := mkDataFrame "tid-a" [x61%byte].
Definition frame_b : DataFrame := mkDataFrame "tid-b" [x62%byte].
Definition frame_c : DataFrame := mkDataFrame "tid-c" [x63%byte].

Definition goodStream (id : nat) : quic.SendStream :=
  quic.mkSendStream id (fun _ => None).
Definition brokenStream (id : nat) : quic.SendStream :=
  quic.mkSendStream id (fun _ => Some "write: broken pipe").
Definition goodConn (id : nat) : quic.Conn :=
  quic.mkConn id (inl (goodStream (10 + id))) [].
Definition brokenWriteConn (id : nat) : quic.Conn :=
  quic.mkConn id (inl (brokenStream (10 + id))) [].
Definition deadConn (id : nat) : quic.Conn :=
  quic.mkConn id (inr "too many open streams") [].

(** Stage descriptors with no, one and two replicas. *)
Definition replica (id : nat) : StreamFunc := mkStreamFunc (Some (goodConn id)) (100 + id).
Definition noReplica : GetStreamFunc := fun _ => ("fn", []).
Definition oneReplica : GetStreamFunc := fun _ => ("fn", [replica 0]).
Definition twoReplicas : GetStreamFunc := fun _ => ("fn", [replica 0; replica 1]).

(** The single-replica case as the specification words it, at one input:
    every task the dispatcher starts writes the item to the replica exactly
    once. *)
Definition sent_to_replica_once (Encode : DataFrame -> list byte)
    (NewSpanFromData : string -> string -> string -> option nat)
    (ErrConnectionClosed : string) (status : Task -> ChanStatus) (ctx : Context)
    (sfn : GetStreamFunc) (data : DataFrame) (next : Chan) : Prop :=
  forall task,
    spawned (dispatchToStreamFn sfn data next).1 = [task] ->
    length (writes (run_task Encode NewSpanFromData ErrConnectionClosed status ctx task).1) = 1.

(** The position, in the replica list [funcs], of the replica a send task
    was started for (replicas are told apart by their cancel capability). *)
Definition position_in (funcs : list StreamFunc) (t : Task) : option nat :=
  match t with
  | GoSendDataToStreamFn _ _ c _ _ =>
      fst <$> list_find (fun f => cancel f = c) funcs
  | _ => None
  end.

(** The replica positions chosen for the items that the send loop of
    [pipeStreamFn] takes from [upstream], in the order of the items. *)
Definition chosen (sfn : GetStreamFunc) (upstream : list (Select DataFrame))
    (next : Chan) : list (option nat) :=
  position_in (sfn tt).2 <$>
    spawned_by_tasks carriageEncode noSpan connectionClosed allReady Background
      (pipeStreamFn_send upstream sfn next).1.

(** Round robin as the specification words it: the [i]-th dispatched item,
    counting from 1, goes to [replicas[(i-1) mod K]]. *)
Definition round_robin_spec (K M : nat) : list (option nat) :=
  (fun i => Some ((i - 1) mod K)) <$> seq 1 M.

(** ** The rest of dispatch.go: wiring and further observations *)

Definition new_spans (t : list event) : list (option nat) :=
  omap (fun e => match e with EvNewSpan _ sp => Some sp | _ => None end) t.
Definition span_ends (t : list event) : list nat :=
  omap (fun e => match e with EvSpanEnd sp => Some sp | _ => None end) t.

(** A context that is cancelled between its polls [k - 1] and [k]: it is
    seen done from the [k]-th poll on. *)
Definition cancelledAt (k : nat) : Context := fun j => Nat.leb k j.

(** The items the send loop of [pipeStreamFn] takes from upstream: those
    that arrive before the first round in which the context is done or
    upstream is closed. *)
Fixpoint taken_items (upstream : list (Select DataFrame)) : list DataFrame :=
  match upstream with
  | SelRecv item :: rest => item :: taken_items rest
  | _ => []
  end.

(** Whether upstream ends the send loop. *)
Definition upstream_ends (upstream : list (Select DataFrame)) : bool :=
  existsb (fun s => match s with SelRecv _ => false | _ => true end) upstream.

(** The sub-streams a session hands out before its first accept error, and
    that error. *)
Fixpoint accepted (accepts : list (quic.ReceiveStream + string))
    : list quic.ReceiveStream :=
  match accepts with
  | inl stream :: rest => stream :: accepted rest
  | _ => []
  end.

Fixpoint accept_error (accepts : list (quic.ReceiveStream + string)) : option string :=
  match accepts with
  | inl _ :: rest => accept_error rest
  | inr err :: _ => Some err
  | [] => None
  end.

(** The goroutine [pipeStreamFn] starts (lines 65-86): it starts the send
    loop as a goroutine of its own, then runs the reply receiver;
    [close(next)] is deferred.  [pipe_send] is the run of the send loop,
    [pipe_receive] the run of the goroutine itself. *)
Record PipeRun : Type := mkPipeRun {
  pipe_directory : Directory;
  pipe_send : M unit;
  pipe_receive : M unit
}.

Definition pipeStreamFn_go (upstream : list (Select DataFrame))
    (deliveries : SessionChan -> list (Select quic.Session))
    (sfn : GetStreamFunc) (next : Chan) (d : Directory) : PipeRun :=
  let r := receiveResponseFromStreamFn deliveries sfn next d in
  mkPipeRun r.1 (pipeStreamFn_send upstream sfn next) (defer [EvChanClose next] r.2).

(** The goroutines of the pipeline, as [DispatcherWithFunc] wires them. *)
Inductive Goroutine : Type :=
| GoReadDataFromSource (stream : quic.ReceiveStream) (next : Chan)
| GoPipeStreamFn (upstream : Chan) (sfn : GetStreamFunc) (next : Chan).

(** The channels of data frames made so far (channel [i] has the capacity
    [chans !! i]) and the goroutines started so far. *)
Record Runtime : Type := mkRuntime {
  chans : list nat;
  goroutines : list Goroutine
}.

(** [make(chan *frame.DataFrame, cap)] *)
Definition make_frame_chan (cap : nat) (rt : Runtime) : Chan * Runtime :=
  (length (chans rt), mkRuntime (chans rt ++ [cap]) (goroutines rt)).

Definition start (g : Goroutine) (rt : Runtime) : Runtime :=
  mkRuntime (chans rt) (goroutines rt ++ [g]).

(** [readDataFromSource] as its caller sees it (lines 28-59): make [next],
    start the reader, return [next]. *)
Definition start_readDataFromSource (stream : quic.ReceiveStream) (rt : Runtime)
    : Chan * Runtime :=
  let '(next, rt1) := make_frame_chan bufferSize rt in
  (next, start (GoReadDataFromSource stream next) rt1).

(** [pipeStreamFn] as its caller sees it (lines 62-89). *)
Definition start_pipeStreamFn (upstream : Chan) (sfn : GetStreamFunc) (rt : Runtime)
    : Chan * Runtime :=
  let '(next, rt1) := make_frame_chan bufferSize rt in
  (next, start (GoPipeStreamFn upstream sfn next) rt1).

(** [DispatcherWithFunc] dispatches the input stream to downstreams. *)
Definition DispatcherWithFunc (sfns : list GetStreamFunc)
    (stream : quic.ReceiveStream) (rt : Runtime) : Chan * Runtime :=
  foldl (fun st sfn => start_pipeStreamFn st.1 sfn st.2)
        (start_readDataFromSource stream rt) sfns.

(** The channel a goroutine writes and closes, and the channel it reads. *)
Definition output_of (g : Goroutine) : Chan :=
  match g with
  | GoReadDataFromSource _ next => next
  | GoPipeStreamFn _ _ next => next
  end.

Definition input_of (g : Goroutine) : option Chan :=
  match g with
  | GoReadDataFromSource _ _ => None
  | GoPipeStreamFn upstream _ _ => Some upstream
  end.

(** The pipes of a chain of stages whose first stage reads [upstream]: each
    stage writes the channel made right after the one it reads. *)
Fixpoint pipes (upstream : Chan) (sfns : list GetStreamFunc) : list Goroutine :=
  match sfns with
  | [] => []
  | sfn :: rest => GoPipeStreamFn upstream sfn (S upstream) :: pipes (S upstream) rest
  end.

(** The goroutines a call started, given the runtime before and after. *)
Definition started_since (before after : Runtime) : list Goroutine :=
  drop (length (goroutines before)) (goroutines after).

(** What a goroutine of the pipeline does: [recv ch] is what the send loop
    observes on the channel [ch], round after round. *)
Definition run_goroutine (ctx : Context)
    (recv : Chan -> list (Select DataFrame))
    (deliveries : SessionChan -> list (Select quic.Session))
    (d : Directory) (g : Goroutine) : M unit :=
  match g with
  | GoReadDataFromSource stream next => readDataFromSource ctx stream next
  | GoPipeStreamFn upstream sfn next =>
      pipe_receive (pipeStreamFn_go (recv upstream) deliveries sfn next d)
  end.

(** The directory keeps its queues apart: every queue stored was made
    before, and queues stored under different names are different queues. *)
Definition queues_apart (d : Directory) : Prop :=
  (forall n q, newStreamFuncSessionCache d !! n = Some q -> chan_id q < made d)
  /\ (forall n1 n2 q1 q2,
        newStreamFuncSessionCache d !! n1 = Some q1 ->
        newStreamFuncSessionCache d !! n2 = Some q2 ->
        chan_id q1 = chan_id q2 -> n1 = n2).

(** The reply a sub-stream carries: its first data frame, when no parse
    failure comes before it. *)
Fixpoint first_data_frame (stream : quic.ReceiveStream) : option DataFrame :=
  match stream with
  | quic.ParseOk (FData d) :: _ => Some d
  | quic.ParseOk (FControl _) :: rest => first_data_frame rest
  | _ => None
  end.

(** Whether a sub-stream that carries no reply ends in a parse failure (the
    other case is that it stays open and silent). *)
Fixpoint fails_before_reply (stream : quic.ReceiveStream) : bool :=
  match stream with
  | quic.ParseErr _ :: _ => true
  | quic.ParseOk (FControl _) :: rest => fails_before_reply rest
  | _ => false
  end.

(** What a send task for a replica with a nil session comes to, as its
    result, its sends on the output channel, its calls of cancel and the
    sub-streams it opens, by what its send on the output channel meets. *)
Definition passthrough_result (st : ChanStatus) (next : Chan) (item : DataFrame)
    (c : CancelFunc)
    : outcome unit * list (Chan * DataFrame) * list CancelFunc * list nat :=
  match st with
  | ChanReady => (Ret tt, [(next, item)], [c], [])
  | ChanClosed => (Panic "send on closed channel", [], [], [])
  | ChanFull => (Block, [], [], [])
  end.

(** An output channel that takes the send of the task for the item a and is
    closed for every other task. *)
Definition closedAfter_a (t : Task) : ChanStatus :=
  match t with
  | GoSendDataToStreamFn _ _ _ data _ =>
      if String.eqb (TransactionID data) "tid-a" then ChanReady else ChanClosed
  | _ => ChanClosed
  end.

(** What a read unit puts on the output channel [next]: the reply its
    sub-stream carries, when the channel takes the send. *)
Definition reply_sent (st : ChanStatus) (next : Chan)
    (stream : quic.ReceiveStream) : list (Chan * DataFrame) :=
  match st with
  | ChanReady => pair next <$> option_list (first_data_frame stream)
  | _ => []
  end.

(** Cancellation as the specification words it, for the source reader at
    one input: once the context is cancelled the reader returns and its
    output channel is closed, also when a frame read is in progress. *)
Definition closes_when_cancelled (ctx : Context) (stream : quic.ReceiveStream)
    (next : Chan) : Prop :=
  (exists k, ctx k = true) ->
  let r := readDataFromSource ctx stream next in
  r.2 = Ret tt /\ closes r.1 = [next].

(** The stage name a descriptor answers. *)
Definition stage_name (sfn : GetStreamFunc) : string := (sfn tt).1.

(** Further inputs to run the model on. *)
Definition nilReplica : GetStreamFunc := fun _ => ("fn", [mkStreamFunc None 100]).
Definition otherStage : GetStreamFunc := fun _ => ("sink", [replica 2]).
Definition threeReplicas : GetStreamFunc :=
  fun _ => ("fn", [replica 0; replica 1; replica 2]).

(** ** Frames and their tags *)

(** The frames that pass the type assertion are exactly the frames whose
    tag is the data-frame tag. *)
Lemma as_DataFrame_tag (f : Frame) :
  is_Some (as_DataFrame f) <-> Type_of f = TagOfDataFrame.
Proof.
  destruct f as [d|k]; cbn; split; done.
Qed.

(** ** The replica send path *)

Section SendPath.

Variable Encode : DataFrame -> list byte.
Variable NewSpanFromData : string -> string -> string -> option nat.

Local Abbreviation send := (sendDataToStreamFn Encode NewSpanFromData).

(** C2: when the session of the replica is nil, or its OpenUniStream
    answers an error, and the output channel has been closed by the time
    the send path sends on it, the send panics: the item is not forwarded
    and the replica's cancel is never called.  When the channel is full and
    stays full the send path never gets past the send, and cancel is not
    called either. *)
Theorem sendDataToStreamFn_send_on_closed_channel
    (name : string) (s : quic.Session) (c : CancelFunc) (data : DataFrame)
    (next : Chan) :
  unreachable s = true ->
  (let r := send ChanClosed name s c data next in
   r.2 = Panic "send on closed channel" /\ sends r.1 = [] /\ cancels r.1 = [])
  /\ (let r := send ChanFull name s c data next in
      r.2 = Block /\ sends r.1 = [] /\ cancels r.1 = []).
Proof.
  unfold unreachable, sendDataToStreamFn.
  destruct s as [conn|]; [|intros _; cbn; auto].
  destruct (quic.OpenUniStream conn) as [stream|err]; [discriminate|].
  intros _. destruct (NewSpanFromData _ _ _); cbn; auto.
Qed.

(** X23: when the session of the replica is nil, or its OpenUniStream
    answers an error, and the output channel takes the send, the send path
    returns after exactly one send of the original item on the output
    channel and exactly one call of the replica's cancel; OpenUniStream is
    called at most once and nothing is written, so nothing is retried. *)
Theorem sendDataToStreamFn_passthrough
    (name : string) (s : quic.Session) (c : CancelFunc) (data : DataFrame)
    (next : Chan) :
  unreachable s = true ->
  let r := send ChanReady name s c data next in
  r.2 = Ret tt
  /\ sends r.1 = [(next, data)]
  /\ cancels r.1 = [c]
  /\ opens r.1 = match s with Some conn => [quic.conn_id conn] | None => [] end
  /\ writes r.1 = [].
Proof.
  unfold unreachable, sendDataToStreamFn.
  destruct s as [conn|]; [|intros _; cbn; auto].
  destruct (quic.OpenUniStream conn) as [stream|err]; [discriminate|].
  intros _. destruct (NewSpanFromData _ _ _); cbn; auto.
Qed.

(** C3: when OpenUniStream succeeds and the write on the sub-stream fails,
    the send path calls the replica's cancel exactly once and sends nothing
    on the output channel, whatever the state of that channel. *)
Theorem sendDataToStreamFn_write_failure
    (st : ChanStatus)
    (name : string) (conn : quic.Conn) (stream : quic.SendStream) (err : string)
    (c : CancelFunc) (data : DataFrame) (next : Chan) :
  quic.OpenUniStream conn = inl stream ->
  quic.Write stream (Encode data) = Some err ->
  let r := send st name (Some conn) c data next in
  r.2 = Ret tt /\ cancels r.1 = [c] /\ sends r.1 = [].
Proof.
  intros Hopen Hwrite. unfold sendDataToStreamFn.
  rewrite Hopen, Hwrite.
  destruct (NewSpanFromData _ _ _); cbn; auto.
Qed.

(** C10: when OpenUniStream succeeds, the send path returns, and on the
    way it closes the opened sub-stream exactly once, right after the one
    write, whether the write succeeded or failed, and whatever the state of
    the output channel. *)
Theorem sendDataToStreamFn_closes_stream
    (st : ChanStatus)
    (name : string) (conn : quic.Conn) (stream : quic.SendStream)
    (c : CancelFunc) (data : DataFrame) (next : Chan) :
  quic.OpenUniStream conn = inl stream ->
  let r := send st name (Some conn) c data next in
  r.2 = Ret tt
  /\ stream_closes r.1 = [quic.send_id stream]
  /\ writes r.1 = [(quic.send_id stream, Encode data)]
  /\ exists pre post,
       r.1 = (pre ++ EvWrite (quic.send_id stream) (Encode data)
                  :: EvStreamClose (quic.send_id stream) :: post)%list.
Proof.
  intros Hopen. unfold sendDataToStreamFn. rewrite Hopen.
  destruct (quic.Write stream (Encode data)) as [err|];
    destruct (NewSpanFromData _ _ _); cbn;
    repeat split; try reflexivity;
    eexists [_; _], _; reflexivity.
Qed.

End SendPath.

(** C2 at a replica whose session is nil. *)
Lemma sendDataToStreamFn_send_on_closed_channel_witness :
  (let r := sendDataToStreamFn carriageEncode oneSpan ChanClosed "fn" None 3 frame_a 1 in
   r.2 = Panic "send on closed channel" /\ sends r.1 = [] /\ cancels r.1 = [])
  /\ (let r := sendDataToStreamFn carriageEncode oneSpan ChanFull "fn" None 3 frame_a 1 in
      r.2 = Block /\ sends r.1 = [] /\ cancels r.1 = []).
Proof.
  apply (sendDataToStreamFn_send_on_closed_channel carriageEncode oneSpan
           "fn" None 3 frame_a 1).
  reflexivity.
Defined.

(** X23 at a replica whose OpenUniStream fails. *)
Lemma sendDataToStreamFn_passthrough_witness :
  let r := sendDataToStreamFn carriageEncode oneSpan ChanReady "fn"
             (Some (deadConn 0)) 3 frame_a 1 in
  unreachable (Some (deadConn 0)) = true
  /\ r.2 = Ret tt
  /\ sends r.1 = [(1, frame_a)]
  /\ cancels r.1 = [3]
  /\ opens r.1 = [0]
  /\ writes r.1 = [].
Proof.
  split; [reflexivity|].
  apply (sendDataToStreamFn_passthrough carriageEncode oneSpan "fn" (Some (deadConn 0)) 3 frame_a 1).
  reflexivity.
Defined.

(** C3 at a replica whose sub-stream refuses the write, with the output
    channel already closed. *)
Lemma sendDataToStreamFn_write_failure_witness :
  let r := sendDataToStreamFn carriageEncode oneSpan ChanClosed "fn"
             (Some (brokenWriteConn 0)) 3 frame_a 1 in
  r.2 = Ret tt /\ cancels r.1 = [3] /\ sends r.1 = [].
Proof.
  apply (sendDataToStreamFn_write_failure carriageEncode oneSpan ChanClosed "fn"
           (brokenWriteConn 0) (brokenStream 10) "write: broken pipe" 3 frame_a 1);
    reflexivity.
Defined.

(** C10 at a replica whose sub-stream refuses the write, with the output
    channel already closed. *)
Lemma sendDataToStreamFn_closes_stream_witness :
  let r := sendDataToStreamFn carriageEncode noSpan ChanClosed "fn"
             (Some (brokenWriteConn 0)) 3 frame_a 1 in
  r.2 = Ret tt
  /\ stream_closes r.1 = [10]
  /\ writes r.1 = [(10, [x61%byte])]
  /\ exists pre post,
       r.1 = (pre ++ EvWrite 10 [x61%byte] :: EvStreamClose 10 :: post)%list.
Proof.
  apply (sendDataToStreamFn_closes_stream carriageEncode noSpan ChanClosed "fn"
           (brokenWriteConn 0) (brokenStream 10) 3 frame_a 1).
  reflexivity.
Defined.

(** ** The dispatcher *)

(** C4: when the stage descriptor answers an empty replica list, the
    dispatcher logs and returns: nothing is sent on the output channel, no
    task is started, no replica is opened or cancelled, and the body neither
    panics nor blocks. *)
Theorem dispatchToStreamFn_no_replicas
    (sfn : GetStreamFunc) (data : DataFrame) (next : Chan) :
  (sfn tt).2 = [] ->
  let r := dispatchToStreamFn sfn data next in
  r.2 = Ret tt
  /\ sends r.1 = []
  /\ spawned r.1 = []
  /\ opens r.1 = []
  /\ cancels r.1 = []
  /\ logged r.1 = [(Info, "no available sessions in stream fn.")].
Proof.
  unfold dispatchToStreamFn. destruct (sfn tt) as [name funcs]; cbn.
  intros ->. cbn. auto 10.
Qed.

Lemma dispatchToStreamFn_no_replicas_witness :
  let r := dispatchToStreamFn noReplica frame_a 1 in
  r.2 = Ret tt
  /\ sends r.1 = []
  /\ spawned r.1 = []
  /\ opens r.1 = []
  /\ cancels r.1 = []
  /\ logged r.1 = [(Info, "no available sessions in stream fn.")].
Proof. apply (dispatchToStreamFn_no_replicas noReplica frame_a 1). reflexivity. Defined.

(** What the send path writes to a replica: the encoded item, once, when
    the session is not nil and its OpenUniStream succeeds; nothing
    otherwise. *)
Lemma sendDataToStreamFn_writes
    (Encode : DataFrame -> list byte)
    (NewSpanFromData : string -> string -> string -> option nat)
    (st : ChanStatus) (name : string) (s : quic.Session) (c : CancelFunc)
    (data : DataFrame) (next : Chan) :
  let r := sendDataToStreamFn Encode NewSpanFromData st name s c data next in
  writes r.1 = written_to_replica Encode s data
  /\ opens r.1 = match s with Some conn => [quic.conn_id conn] | None => [] end
  /\ counter_ops r.1 = [].
Proof.
  unfold sendDataToStreamFn, written_to_replica.
  destruct s as [conn|]; [|destruct st; cbn; auto].
  destruct (quic.OpenUniStream conn) as [stream|err];
    [destruct (quic.Write stream (Encode data)) as [err|]|];
    destruct (NewSpanFromData _ _ _); destruct st; cbn; auto.
Qed.

(** C5, as the code has it: when the stage descriptor answers exactly one
    replica, the dispatcher returns after starting exactly one send task,
    for that replica and this item, without any operation on the rotation
    counter.  That task opens at most one sub-stream and writes the encoded
    item to the replica exactly once when the session of the replica is not
    nil and its OpenUniStream succeeds; with a nil session or a failed
    OpenUniStream nothing is written to the replica. *)
Theorem dispatchToStreamFn_single_replica
    (Encode : DataFrame -> list byte)
    (NewSpanFromData : string -> string -> string -> option nat)
    (ErrConnectionClosed : string) (status : Task -> ChanStatus) (ctx : Context)
    (sfn : GetStreamFunc) (f : StreamFunc) (data : DataFrame) (next : Chan) :
  (sfn tt).2 = [f] ->
  let r := dispatchToStreamFn sfn data next in
  let task := GoSendDataToStreamFn (sfn tt).1 (session f) (cancel f) data next in
  let t := run_task Encode NewSpanFromData ErrConnectionClosed status ctx task in
  r.2 = Ret tt
  /\ spawned r.1 = [task]
  /\ counter_ops r.1 = []
  /\ sends r.1 = []
  /\ writes t.1 = written_to_replica Encode (session f) data
  /\ opens t.1 = match session f with Some conn => [quic.conn_id conn] | None => [] end
  /\ counter_ops t.1 = [].
Proof.
  intros Hfuncs r task t. subst r t.
  destruct (sendDataToStreamFn_writes Encode NewSpanFromData (status task)
              (sfn tt).1 (session f) (cancel f) data next) as (Hw & Ho & Hc).
  unfold dispatchToStreamFn. destruct (sfn tt) as [name funcs]; cbn [fst snd] in *.
  subst funcs. cbn. auto 10.
Qed.

(** C5 at a replica that can be reached: the item is written to it once. *)
Lemma dispatchToStreamFn_single_replica_witness :
  let r := dispatchToStreamFn oneReplica frame_a 1 in
  let task := GoSendDataToStreamFn "fn" (Some (goodConn 0)) 100 frame_a 1 in
  let t := run_task carriageEncode noSpan connectionClosed allReady Background task in
  r.2 = Ret tt
  /\ spawned r.1 = [task]
  /\ counter_ops r.1 = []
  /\ sends r.1 = []
  /\ writes t.1 = [(10, [x61%byte])]
  /\ opens t.1 = [0]
  /\ counter_ops t.1 = [].
Proof.
  apply (dispatchToStreamFn_single_replica carriageEncode noSpan connectionClosed
           allReady Background oneReplica (replica 0) frame_a 1).
  reflexivity.
Defined.

(** C5 as stated fails: at a stage whose one replica has a nil session the
    dispatcher starts the send task for that replica, but the task writes
    nothing to the replica (it passes the item on to the output channel and
    calls cancel instead). *)
Lemma dispatchToStreamFn_single_nil_replica :
  let task := GoSendDataToStreamFn "fn" None 100 frame_a 1 in
  let t := run_task carriageEncode noSpan connectionClosed allReady Background task in
  spawned (dispatchToStreamFn nilReplica frame_a 1).1 = [task]
  /\ writes t.1 = []
  /\ opens t.1 = []
  /\ sends t.1 = [(1, frame_a)]
  /\ ~ sent_to_replica_once carriageEncode noSpan connectionClosed allReady Background
        nilReplica frame_a 1.
Proof.
  cbn. repeat split; try reflexivity.
  unfold sent_to_replica_once. cbn. intros H. specialize (H _ eq_refl).
  cbn in H. discriminate.
Qed.

(** With two replicas or more every call of the dispatcher starts from a
    counter that is zero: it adds one to it and selects [funcs[0]]. *)
Lemma dispatchToStreamFn_many_replicas
    (sfn : GetStreamFunc) (f0 f1 : StreamFunc) (fs : list StreamFunc)
    (data : DataFrame) (next : Chan) :
  (sfn tt).2 = f0 :: f1 :: fs ->
  let r := dispatchToStreamFn sfn data next in
  r.2 = Ret tt
  /\ spawned r.1 = [GoSendDataToStreamFn (sfn tt).1 (session f0) (cancel f0) data next]
  /\ counter_ops r.1 = [(0, 1)%Z].
Proof.
  unfold dispatchToStreamFn. destruct (sfn tt) as [name funcs]; cbn [snd fst].
  intros ->.
  assert (Hlen : (2 <= Z.of_nat (length (f0 :: f1 :: fs)))%Z)
    by (cbn [length]; lia).
  destruct (Z.eqb_spec (Z.of_nat (length (f0 :: f1 :: fs))) 0); [lia|].
  destruct (Z.eqb_spec (Z.of_nat (length (f0 :: f1 :: fs))) 1); [lia|].
  change (AddUint32 0 1) with 1%Z. change (1 - 1)%Z with 0%Z.
  rewrite Z.rem_0_l by lia.
  unfold index. change (0 <=? 0)%Z with true.
  destruct (Z.ltb_spec 0 (Z.of_nat (length (f0 :: f1 :: fs)))); [|lia].
  cbn. auto.
Qed.

Lemma pipeStreamFn_send_tasks
    (items : list DataFrame) (sfn : GetStreamFunc) (next : Chan) :
  let r := pipeStreamFn_send (SelRecv <$> items) sfn next in
  spawned r.1 = (fun item => GoDispatchToStreamFn sfn item next) <$> items
  /\ r.2 = Block.
Proof.
  induction items as [|item items IH]; cbn; [done|].
  destruct (pipeStreamFn_send (SelRecv <$> items) sfn next) as [t o].
  cbn in *. destruct IH as (-> & ->). done.
Qed.

(** However many items the send loop of a pipe takes from upstream, with two
    replicas or more each of them is sent to [funcs[0]]. *)
Lemma pipeStreamFn_send_always_first_replica
    (Encode : DataFrame -> list byte)
    (NewSpanFromData : string -> string -> string -> option nat)
    (ErrConnectionClosed : string) (status : Task -> ChanStatus) (ctx : Context)
    (sfn : GetStreamFunc) (f0 f1 : StreamFunc) (fs : list StreamFunc)
    (items : list DataFrame) (next : Chan) :
  (sfn tt).2 = f0 :: f1 :: fs ->
  spawned_by_tasks Encode NewSpanFromData ErrConnectionClosed status ctx
    (pipeStreamFn_send (SelRecv <$> items) sfn next).1
  = (fun item => GoSendDataToStreamFn (sfn tt).1 (session f0) (cancel f0) item next)
      <$> items.
Proof.
  intros Hfuncs. unfold spawned_by_tasks.
  destruct (pipeStreamFn_send_tasks items sfn next) as (-> & _).
  induction items as [|item items IH]; cbn; [done|].
  destruct (dispatchToStreamFn_many_replicas sfn f0 f1 fs item next Hfuncs)
    as (_ & -> & _).
  cbn. by rewrite IH.
Qed.

(** C1: two replicas R0 and R1, three items a, b, c taken in this order by
    the send loop of a fresh pipe: the dispatcher chooses R0, R0, R0, where
    round robin asks for R0, R1, R0; the second item already goes to the
    wrong replica. *)
Theorem dispatchToStreamFn_rotation_restarts :
  chosen twoReplicas [SelRecv frame_a; SelRecv frame_b; SelRecv frame_c] 1
    = [Some 0; Some 0; Some 0]
  /\ round_robin_spec 2 3 = [Some 0; Some 1; Some 0]
  /\ chosen twoReplicas [SelRecv frame_a; SelRecv frame_b] 1 !! 1
      <> round_robin_spec 2 2 !! 1.
Proof. repeat split; vm_compute; congruence. Qed.

(** ** The frame source reader *)

Section Readers.

Variable NewSpanFromData : string -> string -> string -> option nat.

Lemma sourceLoop_trace (ctx : Context) (stream : quic.ReceiveStream)
    (next : Chan) (k : nat) :
  let r := sourceLoop ctx k stream next in
  sends r.1 = pair next <$> data_frames (parsed r.1)
  /\ logged r.1 = source_log <$> parsed r.1
  /\ parsed r.1 `prefix_of` stream
  /\ closes r.1 = []
  /\ (forall msg, r.2 <> Panic msg).
Proof.
  revert k. induction stream as [|p rest IH]; intros k; cbn.
  - destruct (ctx k); cbn; repeat split; try done; apply prefix_nil.
  - destruct (ctx k); cbn; [repeat split; try done; apply prefix_nil|].
    destruct p as [[d|c]|err]; cbn;
      [specialize (IH (S k));
       destruct (sourceLoop ctx (S k) rest next) as [t o];
       cbn in IH; destruct IH as (Hs & Hl & Hp & Hc & Ho);
       destruct o; cbn; rewrite ?Hs, ?Hl, ?Hc;
       repeat split; try done; try (by apply prefix_cons) ..
      |repeat split; try done; apply prefix_cons, prefix_nil].
Qed.

Lemma sourceLoop_until_error (ctx : Context) (frames : list Frame)
    (err : string) (rest : quic.ReceiveStream) (next : Chan) (k : nat) :
  let r := sourceLoop ctx k ((quic.ParseOk <$> frames) ++ quic.ParseErr err :: rest) next in
  r.2 = Ret tt
  /\ ((forall j, ctx j = false) ->
      parsed r.1 = (quic.ParseOk <$> frames) ++ [quic.ParseErr err]).
Proof.
  revert k. induction frames as [|f frames IH]; intros k; cbn.
  - destruct (ctx k) eqn:Hk; cbn; split; try done.
    intros H. by rewrite H in Hk.
  - destruct (ctx k) eqn:Hk; cbn.
    { split; [done|]. intros H. by rewrite H in Hk. }
    specialize (IH (S k)).
    destruct (sourceLoop ctx (S k) _ next) as [t o].
    cbn in IH. destruct IH as (-> & Hp).
    destruct f as [d|c]; cbn; (split; [done|]); intros H; by rewrite Hp.
Qed.

Lemma defer_close (m : M unit) (next : Chan) :
  let r := defer [EvChanClose next] m in
  r.2 = m.2
  /\ sends r.1 = sends m.1
  /\ parsed r.1 = parsed m.1
  /\ logged r.1 = logged m.1
  /\ closes r.1 = closes m.1 ++ match m.2 with Block => [] | _ => [next] end.
Proof.
  destruct m as [t [[]| |msg]]; cbn;
    unfold sends, parsed, logged, closes; rewrite ?omap_app; cbn;
    rewrite ?app_nil_r; done.
Qed.

(** C7: the source reader sends on its output channel exactly the data
    frames (the frames with the data-frame tag) among the frames it parsed,
    in parse order, and logs one line for every other frame; it parses the stream in order; whenever it
    returns it has closed the output channel exactly once; it never
    panics.  On a stream whose first parse failure comes after [frames],
    it returns, with the channel closed once, whatever the context does,
    and when the context is never cancelled it has parsed [frames] and the
    failure, nothing after it, and sent the data frames of [frames]. *)
Theorem readDataFromSource_forwards_data_frames :
  (forall (ctx : Context) (stream : quic.ReceiveStream) (next : Chan),
      let r := readDataFromSource ctx stream next in
      sends r.1 = pair next <$> data_frames (parsed r.1)
      /\ logged r.1 = source_log <$> parsed r.1
      /\ parsed r.1 `prefix_of` stream
      /\ match r.2 with
         | Ret _ => closes r.1 = [next]
         | Block => closes r.1 = []
         | Panic _ => False
         end)
  /\ (forall (ctx : Context) (frames : list Frame) (err : string)
             (rest : quic.ReceiveStream) (next : Chan),
        let r := readDataFromSource ctx
                   ((quic.ParseOk <$> frames) ++ quic.ParseErr err :: rest) next in
        r.2 = Ret tt /\ closes r.1 = [next])
  /\ (forall (frames : list Frame) (err : string)
             (rest : quic.ReceiveStream) (next : Chan),
        let r := readDataFromSource Background
                   ((quic.ParseOk <$> frames) ++ quic.ParseErr err :: rest) next in
        parsed r.1 = (quic.ParseOk <$> frames) ++ [quic.ParseErr err]
        /\ sends r.1 = pair next <$> omap as_DataFrame frames).
Proof.
  split; [|split].
  - intros ctx stream next r. subst r. unfold readDataFromSource.
    destruct (defer_close (sourceLoop ctx 0 stream next) next)
      as (Ho & Hs & Hp & Hl & Hc).
    destruct (sourceLoop_trace ctx stream next 0) as (Ts & Tl & Tp & Tc & To).
    rewrite Hs, Hp, Hl, Hc, Ho, Tc.
    repeat split; try done.
    destruct (sourceLoop ctx 0 stream next).2 as [[]| |msg] eqn:E; cbn; try done.
    by apply (To msg).
  - intros ctx frames err rest next r. subst r. unfold readDataFromSource.
    destruct (defer_close
                (sourceLoop ctx 0 ((quic.ParseOk <$> frames) ++ quic.ParseErr err :: rest) next)
                next) as (Ho & _ & _ & _ & Hc).
    destruct (sourceLoop_until_error ctx frames err rest next 0) as (Hr & _).
    destruct (sourceLoop_trace ctx
                ((quic.ParseOk <$> frames) ++ quic.ParseErr err :: rest) next 0)
      as (_ & _ & _ & Tc & _).
    rewrite Ho, Hc, Hr, Tc. done.
  - intros frames err rest next r. subst r. unfold readDataFromSource.
    destruct (defer_close
                (sourceLoop Background 0
                   ((quic.ParseOk <$> frames) ++ quic.ParseErr err :: rest) next)
                next) as (_ & Hs & Hp & _ & _).
    destruct (sourceLoop_until_error Background frames err rest next 0) as (_ & Hq).
    destruct (sourceLoop_trace Background
                ((quic.ParseOk <$> frames) ++ quic.ParseErr err :: rest) next 0)
      as (Ts & _).
    rewrite Hs, Hp, Ts, Hq by done. split; [done|].
    f_equal. unfold data_frames. rewrite omap_app. cbn. rewrite app_nil_r.
    clear. induction frames as [|f frames IH]; cbn; [done|].
    destruct (as_DataFrame f); cbn; by rewrite IH.
Qed.

(** ** The reply read unit *)

Local Abbreviation readLoop' := (readLoop NewSpanFromData).

Lemma readLoop_trace (st : ChanStatus) (ctx : Context) (name : string)
    (stream : quic.ReceiveStream) (next : Chan) (k : nat) :
  let r := readLoop' st ctx k name stream next in
  sends r.1 = match st with
              | ChanReady => pair next <$> data_frames (parsed r.1)
              | _ => []
              end
  /\ length (sends r.1) <= 1
  /\ parsed r.1 `prefix_of` stream
  /\ match r.2 with
     | Panic _ => st = ChanClosed
     | _ => True
     end.
Proof.
  revert k. induction stream as [|p rest IH]; intros k; cbn.
  - destruct (ctx k); destruct st; cbn; repeat split; try done; try lia;
      apply prefix_nil.
  - destruct (ctx k); cbn;
      [destruct st; repeat split; try done; try lia; apply prefix_nil|].
    destruct p as [[d|c]|err]; cbn.
    + destruct (NewSpanFromData _ _ _); destruct st; cbn;
        repeat split; try done; try lia; apply prefix_cons, prefix_nil.
    + specialize (IH (S k)).
      destruct (readLoop' st ctx (S k) name rest next) as [t o].
      cbn in IH. destruct IH as (Hs & Hn & Hp & Ho).
      destruct o; cbn; rewrite ?Hs; rewrite Hs in Hn;
        repeat split; try done; by apply prefix_cons.
    + destruct st; repeat split; try done; try lia; apply prefix_cons, prefix_nil.
Qed.

Lemma readLoop_skips_control_frames (st : ChanStatus) (name : string) (ks : list N)
    (tail : quic.ReceiveStream) (next : Chan) (k : nat) :
  let r := readLoop' st Background k name (control_frames ks ++ tail) next in
  let r' := readLoop' st Background (k + length ks) name tail next in
  r.2 = r'.2
  /\ sends r.1 = sends r'.1
  /\ parsed r.1 = control_frames ks ++ parsed r'.1.
Proof.
  revert k. induction ks as [|c ks IH]; intros k.
  - cbn. by rewrite Nat.add_0_r.
  - specialize (IH (S k)). cbn zeta in IH.
    change (S k + length ks) with (S (k + length ks)) in IH.
    change (control_frames (c :: ks))
      with (quic.ParseOk (FControl c) :: control_frames ks).
    cbn -[control_frames].
    replace (k + S (length ks)) with (S (k + length ks)) by lia.
    revert IH.
    destruct (readLoop' st Background (S k) name (control_frames ks ++ tail) next)
      as [t o].
    destruct (readLoop' st Background (S (k + length ks)) name tail next) as [t' o'].
    cbn -[control_frames]. intros (-> & Hs & Hp).
    destruct o'; cbn -[control_frames]; rewrite ?Hs, ?Hp; done.
Qed.

(** C6, as the code has it: whatever the context and the output channel
    do, the reply read unit never sends more than one frame, sends only a
    data frame it parsed, parses the sub-stream in order, and can panic
    only in a send on a closed output channel.  A frame that is not a data
    frame is skipped and the unit reads on: with the context not cancelled,
    after any number of such frames a parse failure makes it return without
    sending, and a data frame is sent on the output channel, when the
    channel takes the send, and the unit returns; in both cases every
    skipped frame has been parsed and nothing after the failure or the data
    frame.  With the context done at the first poll the unit returns at
    once. *)
Theorem readDataFromStreamFn_reads_until_data_frame :
  (forall (st : ChanStatus) (ctx : Context) (name : string)
          (stream : quic.ReceiveStream) (next : Chan),
      let r := readDataFromStreamFn NewSpanFromData st ctx name stream next in
      length (sends r.1) <= 1
      /\ sends r.1 = match st with
                     | ChanReady => pair next <$> data_frames (parsed r.1)
                     | _ => []
                     end
      /\ parsed r.1 `prefix_of` stream
      /\ match r.2 with
         | Panic _ => st = ChanClosed
         | _ => True
         end)
  /\ (forall (st : ChanStatus) (name : string) (ks : list N) (err : string)
             (rest : quic.ReceiveStream) (next : Chan),
        let r := readDataFromStreamFn NewSpanFromData st Background name
                   (control_frames ks ++ quic.ParseErr err :: rest) next in
        r.2 = Ret tt
        /\ sends r.1 = []
        /\ parsed r.1 = control_frames ks ++ [quic.ParseErr err])
  /\ (forall (name : string) (ks : list N) (d : DataFrame)
             (rest : quic.ReceiveStream) (next : Chan),
        let r := readDataFromStreamFn NewSpanFromData ChanReady Background name
                   (control_frames ks ++ quic.ParseOk (FData d) :: rest) next in
        r.2 = Ret tt
        /\ sends r.1 = [(next, d)]
        /\ parsed r.1 = control_frames ks ++ [quic.ParseOk (FData d)])
  /\ (forall (st : ChanStatus) (name : string) (stream : quic.ReceiveStream)
             (next : Chan),
        readDataFromStreamFn NewSpanFromData st (fun _ => true) name stream next
        = ([], Ret tt)).
Proof.
  split; [|split; [|split]]; [| | |by intros st name [|p rest] next].
  - intros st ctx name stream next r. subst r. unfold readDataFromStreamFn.
    destruct (readLoop_trace st ctx name stream next 0) as (Hs & Hn & Hp & Ho).
    done.
  - intros st name ks err rest next r. subst r. unfold readDataFromStreamFn.
    destruct (readLoop_skips_control_frames st name ks
                (quic.ParseErr err :: rest) next 0) as (-> & -> & ->).
    done.
  - intros name ks d rest next r. subst r. unfold readDataFromStreamFn.
    destruct (readLoop_skips_control_frames ChanReady name ks
                (quic.ParseOk (FData d) :: rest) next 0) as (-> & -> & ->).
    cbn. destruct (NewSpanFromData _ _ _); done.
Qed.

End Readers.

(** C6 as stated fails: on a reply sub-stream that carries a frame that is
    not a data frame and then the data frame a, the unit parses both frames
    and sends a, where the claim has it parse one frame and return without
    sending. *)
Lemma readDataFromStreamFn_reads_past_control_frame :
  let stream := [quic.ParseOk (FControl 0); quic.ParseOk (FData frame_a)] in
  let r := readDataFromStreamFn noSpan ChanReady Background "fn" stream 1 in
  parsed r.1 = stream
  /\ sends r.1 = [(1, frame_a)]
  /\ ~ single_shot_spec r stream.
Proof.
  cbn. repeat split; try reflexivity.
  unfold single_shot_spec. cbn. intros [H _]. lia.
Qed.

(** ** The reply receiver and the session directory *)

Lemma sessionQueue_spec (sfn : GetStreamFunc) (d : Directory) :
  let name := (sfn tt).1 in
  let r := sessionQueue sfn d in
  r.1 = default (mkSessionChan (made d) 5) (newStreamFuncSessionCache d !! name)
  /\ newStreamFuncSessionCache r.2 = <[name := r.1]> (newStreamFuncSessionCache d)
  /\ made r.2 = S (made d).
Proof.
  unfold sessionQueue, LoadOrStore, make_chan. destruct (sfn tt) as [name funcs]. cbn.
  destruct (newStreamFuncSessionCache d !! name) as [q|] eqn:E; cbn.
  - by rewrite insert_id.
  - done.
Qed.

Lemma sessionQueue_keeps (sfn : GetStreamFunc) (d : Directory)
    (name : string) (q : SessionChan) :
  newStreamFuncSessionCache d !! name = Some q ->
  newStreamFuncSessionCache (sessionQueue sfn d).2 !! name = Some q.
Proof.
  intros H. destruct (sessionQueue_spec sfn d) as (Hq & Hc & _).
  rewrite Hc, Hq. destruct (decide ((sfn tt).1 = name)) as [->|Hne].
  - by rewrite lookup_insert_eq, H.
  - by rewrite lookup_insert_ne.
Qed.

Lemma receivers_keep (sfns : list GetStreamFunc) (d : Directory)
    (name : string) (q : SessionChan) :
  newStreamFuncSessionCache d !! name = Some q ->
  newStreamFuncSessionCache (receivers sfns d) !! name = Some q.
Proof.
  revert d. induction sfns as [|sfn sfns IH]; intros d H; cbn; [done|].
  apply IH. by apply sessionQueue_keeps.
Qed.

Lemma receivers_capacity (sfns : list GetStreamFunc) (d : Directory) :
  map_Forall (fun _ q => chan_cap q = 5) (newStreamFuncSessionCache d) ->
  map_Forall (fun _ q => chan_cap q = 5) (newStreamFuncSessionCache (receivers sfns d)).
Proof.
  revert d. induction sfns as [|sfn sfns IH]; intros d H; cbn; [done|].
  apply IH. destruct (sessionQueue_spec sfn d) as (Hq & Hc & _).
  rewrite Hc. apply map_Forall_insert_2; [|done].
  rewrite Hq. destruct (newStreamFuncSessionCache d !! (sfn tt).1) as [q|] eqn:E; cbn.
  - by apply (H _ _ E).
  - done.
Qed.

Lemma receiveLoop_trace (ch : list (Select quic.Session)) (name : string) (next : Chan) :
  let r := receiveLoop ch name next in
  spawned r.1 = (fun conn => GoAcceptLoop name conn next) <$> live_sessions ch
  /\ sends r.1 = []
  /\ r.2 = if ends_loop ch then Ret tt else Block.
Proof.
  unfold ends_loop.
  induction ch as [|[|[conn|]|] ch IH]; cbn; try done.
  destruct (receiveLoop ch name next) as [t o]. cbn in *.
  destruct IH as (Hs & Hn & ->).
  destruct (existsb _ ch); cbn; rewrite Hs, Hn; done.
Qed.

(** C9: the reply receiver takes the session queue of its stage by load or
    create: the queue stored under the stage name when there is one,
    otherwise a new queue of capacity 5 that it stores under the name; the
    other entries of the directory stay as they are.  Whatever receivers are
    started later, for any stages, a receiver of the same stage gets the same
    queue, and from the empty directory every queue has capacity 5.  In the
    loop on that queue a nil session changes nothing, a closed queue (as a
    done context) makes the receiver return, and exactly the sessions that
    are not nil and come before that get an accept loop. *)
Theorem receiveResponseFromStreamFn_session_queue :
  (forall (sfn : GetStreamFunc) (d : Directory),
      let name := (sfn tt).1 in
      let r := sessionQueue sfn d in
      r.1 = default (mkSessionChan (made d) 5) (newStreamFuncSessionCache d !! name)
      /\ newStreamFuncSessionCache r.2 = <[name := r.1]> (newStreamFuncSessionCache d)
      /\ newStreamFuncSessionCache r.2 !! name = Some r.1)
  /\ (forall (sfn : GetStreamFunc) (later : list GetStreamFunc) (d : Directory),
        let r := sessionQueue sfn d in
        (sessionQueue sfn (receivers later r.2)).1 = r.1)
  /\ (forall (sfns : list GetStreamFunc),
        map_Forall (fun _ q => chan_cap q = 5)
          (newStreamFuncSessionCache (receivers sfns emptyDirectory)))
  /\ (forall (deliveries : SessionChan -> list (Select quic.Session))
             (sfn : GetStreamFunc) (next : Chan) (d : Directory),
        let r := receiveResponseFromStreamFn deliveries sfn next d in
        let ch := deliveries (sessionQueue sfn d).1 in
        r.1 = (sessionQueue sfn d).2
        /\ spawned r.2.1 = (fun conn => GoAcceptLoop (sfn tt).1 conn next) <$> live_sessions ch
        /\ sends r.2.1 = []
        /\ r.2.2 = if ends_loop ch then Ret tt else Block)
  /\ (forall (ch : list (Select quic.Session)) (name : string) (next : Chan),
        receiveLoop (SelRecv None :: ch) name next = receiveLoop ch name next
        /\ receiveLoop (SelClosed :: ch) name next = ([], Ret tt)).
Proof.
  split; [|split; [|split; [|split]]].
  - intros sfn d name r. subst name r.
    destruct (sessionQueue_spec sfn d) as (Hq & Hc & _).
    repeat split; try done. rewrite Hc. apply lookup_insert_eq.
  - intros sfn later d r. subst r.
    destruct (sessionQueue_spec sfn d) as (_ & Hc & _).
    destruct (sessionQueue_spec sfn (receivers later (sessionQueue sfn d).2)) as (-> & _).
    rewrite (receivers_keep later _ (sfn tt).1 (sessionQueue sfn d).1); [done|].
    rewrite Hc. apply lookup_insert_eq.
  - intros sfns. apply receivers_capacity. cbn. apply map_Forall_empty.
  - intros deliveries sfn next d r ch. subst r ch.
    unfold receiveResponseFromStreamFn.
    destruct (sessionQueue sfn d) as [q d']. cbn [fst snd].
    destruct (receiveLoop_trace (deliveries q) (sfn tt).1 next) as (Hs & Hn & Ho).
    done.
  - done.
Qed.

(** * Further properties of dispatch.go *)

(** ** The replica send path, on every path *)

Section SendPathMore.

Variable Encode : DataFrame -> list byte.
Variable NewSpanFromData : string -> string -> string -> option nat.

Local Abbreviation send := (sendDataToStreamFn Encode NewSpanFromData).

(** X1: when OpenUniStream and the write both succeed, the send path writes
    the encoded item exactly once on the opened sub-stream, closes it, and
    returns without calling cancel and without sending on the output
    channel, whatever the state of that channel. *)
Theorem sendDataToStreamFn_delivers
    (st : ChanStatus)
    (name : string) (conn : quic.Conn) (stream : quic.SendStream)
    (c : CancelFunc) (data : DataFrame) (next : Chan) :
  quic.OpenUniStream conn = inl stream ->
  quic.Write stream (Encode data) = None ->
  let r := send st name (Some conn) c data next in
  r.2 = Ret tt
  /\ opens r.1 = [quic.conn_id conn]
  /\ writes r.1 = [(quic.send_id stream, Encode data)]
  /\ stream_closes r.1 = [quic.send_id stream]
  /\ sends r.1 = []
  /\ cancels r.1 = [].
Proof.
  intros Hopen Hwrite. unfold sendDataToStreamFn. rewrite Hopen, Hwrite.
  destruct (NewSpanFromData _ _ _); cbn; auto 10.
Qed.

(** X2: whatever the session and the output channel answer, the send path
    sends on the output channel at most once, and then the original item;
    it calls cancel at most once, and always when it has passed the item
    through; it never both writes the item to the replica and passes it
    through; it closes every sub-stream it wrote to; it opens at most one
    sub-stream.  It returns on every path but one: the pass-through send
    for a replica that cannot be reached panics when the output channel is
    closed and never returns when the channel stays full. *)
Theorem sendDataToStreamFn_at_most_once
    (st : ChanStatus)
    (name : string) (s : quic.Session) (c : CancelFunc) (data : DataFrame)
    (next : Chan) :
  let r := send st name s c data next in
  r.2 = (if unreachable s
         then match st with
              | ChanReady => Ret tt
              | ChanClosed => Panic "send on closed channel"
              | ChanFull => Block
              end
         else Ret tt)
  /\ (sends r.1 = [] \/ sends r.1 = [(next, data)])
  /\ (cancels r.1 = [] \/ cancels r.1 = [c])
  /\ length (sends r.1) <= length (cancels r.1)
  /\ (sends r.1 = [] \/ writes r.1 = [])
  /\ stream_closes r.1 = fst <$> writes r.1
  /\ length (opens r.1) <= 1.
Proof.
  unfold sendDataToStreamFn, unreachable.
  destruct s as [conn|]; [|destruct st; cbn; auto 10].
  destruct (quic.OpenUniStream conn) as [stream|err];
    [destruct (quic.Write stream (Encode data)) as [err|]|];
    destruct (NewSpanFromData _ _ _); destruct st; cbn; auto 10.
Qed.

(** X3: with a session that is not nil the send path asks for one tracing
    span, and when it gets one it ends it exactly once, as its last
    operation, on every path on which it finishes (open failure, write
    failure, success, and also a panic in the pass-through send); only a
    send path that is stuck for ever in the pass-through send leaves the
    span open.  With a nil session it asks for no span. *)
Theorem sendDataToStreamFn_span
    (st : ChanStatus)
    (name : string) (s : quic.Session) (c : CancelFunc) (data : DataFrame)
    (next : Chan) :
  let r := send st name s c data next in
  let span := NewSpanFromData (String.string_of_list_byte (GetCarriage data))
                name ("zipper-send-to-" +:+ name) in
  match s with
  | None => new_spans r.1 = [] /\ span_ends r.1 = []
  | Some _ =>
      new_spans r.1 = [span]
      /\ match span with
         | Some sp =>
             match r.2 with
             | Block => span_ends r.1 = []
             | _ => span_ends r.1 = [sp] /\ last r.1 = Some (EvSpanEnd sp)
             end
         | None => span_ends r.1 = []
         end
  end.
Proof.
  unfold sendDataToStreamFn.
  destruct s as [conn|]; [|destruct st; cbn; auto].
  destruct (quic.OpenUniStream conn) as [stream|err];
    [destruct (quic.Write stream (Encode data)) as [err|]|];
    destruct (NewSpanFromData _ _ _); destruct st; cbn; auto.
Qed.

End SendPathMore.

(** X1 at a replica that takes the write, with the output channel already
    closed. *)
Lemma sendDataToStreamFn_delivers_witness :
  let r := sendDataToStreamFn carriageEncode oneSpan ChanClosed "fn"
             (Some (goodConn 0)) 3 frame_a 1 in
  r.2 = Ret tt
  /\ opens r.1 = [0]
  /\ writes r.1 = [(10, [x61%byte])]
  /\ stream_closes r.1 = [10]
  /\ sends r.1 = []
  /\ cancels r.1 = [].
Proof.
  apply (sendDataToStreamFn_delivers carriageEncode oneSpan ChanClosed "fn"
           (goodConn 0) (goodStream 10) 3 frame_a 1); reflexivity.
Defined.

(** ** The dispatcher, for every replica list *)

Lemma dispatchToStreamFn_trace
    (sfn : GetStreamFunc) (data : DataFrame) (next : Chan) :
  dispatchToStreamFn sfn data next
  = match (sfn tt).2 with
    | [] => ([EvLog Info "no available sessions in stream fn."], Ret tt)
    | [f] => ([EvGo (GoSendDataToStreamFn (sfn tt).1 (session f) (cancel f) data next)],
              Ret tt)
    | f :: _ :: _ =>
        ([EvAtomicAdd 0 1;
          EvLog Debug "[MergeStreamFunc] dispatch data to next stream-function";
          EvGo (GoSendDataToStreamFn (sfn tt).1 (session f) (cancel f) data next)],
         Ret tt)
    end.
Proof.
  unfold dispatchToStreamFn. destruct (sfn tt) as [name funcs]; cbn [fst snd].
  destruct funcs as [|f0 [|f1 fs]]; [done|done|].
  assert (Hlen : (2 <= Z.of_nat (length (f0 :: f1 :: fs)))%Z)
    by (cbn [length]; lia).
  destruct (Z.eqb_spec (Z.of_nat (length (f0 :: f1 :: fs))) 0); [lia|].
  destruct (Z.eqb_spec (Z.of_nat (length (f0 :: f1 :: fs))) 1); [lia|].
  change (AddUint32 0 1) with 1%Z. change (1 - 1)%Z with 0%Z.
  rewrite Z.rem_0_l by lia.
  unfold index. change (0 <=? 0)%Z with true.
  destruct (Z.ltb_spec 0 (Z.of_nat (length (f0 :: f1 :: fs)))); [|lia].
  done.
Qed.

(** X4: for every replica list the dispatcher returns without a panic (the
    index it computes is always in range); it starts no task when the list
    is empty and otherwise exactly one send task, for the first replica of
    the list and this item; it never sends on the output channel, closes
    it, or calls a cancel itself. *)
Theorem dispatchToStreamFn_one_task_for_head
    (sfn : GetStreamFunc) (data : DataFrame) (next : Chan) :
  let r := dispatchToStreamFn sfn data next in
  r.2 = Ret tt
  /\ spawned r.1
     = match (sfn tt).2 with
       | [] => []
       | f :: _ => [GoSendDataToStreamFn (sfn tt).1 (session f) (cancel f) data next]
       end
  /\ sends r.1 = []
  /\ closes r.1 = []
  /\ cancels r.1 = [].
Proof.
  cbn zeta. rewrite dispatchToStreamFn_trace.
  destruct (sfn tt).2 as [|f0 [|f1 fs]]; cbn; auto.
Qed.

(** ** The send loop of a pipe *)

Lemma pipeStreamFn_send_trace
    (upstream : list (Select DataFrame)) (sfn : GetStreamFunc) (next : Chan) :
  let r := pipeStreamFn_send upstream sfn next in
  r.1 = EvGo <$> ((fun item => GoDispatchToStreamFn sfn item next) <$> taken_items upstream)
  /\ r.2 = if upstream_ends upstream then Ret tt else Block.
Proof.
  unfold upstream_ends.
  induction upstream as [|[|item|] rest IH]; cbn; try done.
  destruct (pipeStreamFn_send rest sfn next) as [t o]. cbn in *.
  destruct IH as (-> & ->).
  by destruct (existsb _ rest).
Qed.

Lemma go_only_trace (tasks : list Task) :
  let t := EvGo <$> tasks in
  spawned t = tasks /\ sends t = [] /\ closes t = [] /\ logged t = [].
Proof.
  cbn zeta. unfold spawned, sends, closes, logged.
  induction tasks as [|k l (Hs & Hn & Hc & Hl)]; [done|].
  rewrite fmap_cons. cbn [omap list_omap].
  by rewrite Hs, Hn, Hc, Hl.
Qed.

(** X6: the send loop of a pipe starts one dispatch task for every item
    that arrives from upstream before the context is done or upstream is
    closed, in the order of arrival, and none for what comes after; it
    returns exactly when such a round comes; it never sends on the output
    channel and never closes it. *)
Theorem pipeStreamFn_send_one_dispatch_per_item
    (upstream : list (Select DataFrame)) (sfn : GetStreamFunc) (next : Chan) :
  let r := pipeStreamFn_send upstream sfn next in
  spawned r.1 = (fun item => GoDispatchToStreamFn sfn item next) <$> taken_items upstream
  /\ sends r.1 = []
  /\ closes r.1 = []
  /\ r.2 = if upstream_ends upstream then Ret tt else Block.
Proof.
  destruct (pipeStreamFn_send_trace upstream sfn next) as (Ht & Ho).
  cbn zeta. rewrite Ht, Ho.
  destruct (go_only_trace
              ((fun item => GoDispatchToStreamFn sfn item next) <$> taken_items upstream))
    as (Hs & Hn & Hc & _).
  by rewrite Hs, Hn, Hc.
Qed.

(** ** The accept loop of a session *)

(** X7: the accept loop of a session starts one read unit for every
    sub-stream accepted before the first accept error, in order; at that
    error it returns, with no log line when the error is the
    connection-closed error and one error line otherwise; it is never
    retried; it never sends on the output channel and never closes it. *)
Theorem acceptLoop_until_first_error
    (ErrConnectionClosed : string) (name : string)
    (accepts : list (quic.ReceiveStream + string)) (next : Chan) :
  let r := acceptLoop ErrConnectionClosed name accepts next in
  spawned r.1 = (fun stream => GoReadDataFromStreamFn name stream next) <$> accepted accepts
  /\ sends r.1 = []
  /\ closes r.1 = []
  /\ match accept_error accepts with
     | None => r.2 = Block /\ logged r.1 = []
     | Some err =>
         r.2 = Ret tt
         /\ logged r.1
            = if String.eqb err ErrConnectionClosed then []
              else [(Error, "[MergeStreamFunc] session.AcceptUniStream(ctx) failed")]
     end.
Proof.
  induction accepts as [|[stream|err] rest IH]; cbn.
  - done.
  - destruct (acceptLoop ErrConnectionClosed name rest next) as [t o]. cbn in *.
    destruct IH as (Hs & Hn & Hc & Ho).
    destruct (accept_error rest) as [err|]; destruct Ho as (-> & Hl);
      cbn; rewrite Hs, Hn, Hc, Hl; done.
  - destruct (String.eqb err ErrConnectionClosed); cbn; done.
Qed.

(** ** From upstream to the replicas: the send side of a pipe *)

Section SendSide.

Variable Encode : DataFrame -> list byte.
Variable NewSpanFromData : string -> string -> string -> option nat.
Variable ErrConnectionClosed : string.
Variable status : Task -> ChanStatus.
Variable ctx : Context.

Local Abbreviation run :=
  (run_task Encode NewSpanFromData ErrConnectionClosed status ctx).
Local Abbreviation send_tasks :=
  (spawned_by_tasks Encode NewSpanFromData ErrConnectionClosed status ctx).

Lemma pipeline_send_tasks
    (upstream : list (Select DataFrame)) (sfn : GetStreamFunc) (next : Chan) :
  send_tasks (pipeStreamFn_send upstream sfn next).1
  = item ← taken_items upstream;
    match (sfn tt).2 with
    | [] => []
    | f :: _ => [GoSendDataToStreamFn (sfn tt).1 (session f) (cancel f) item next]
    end.
Proof.
  unfold spawned_by_tasks.
  destruct (pipeStreamFn_send_trace upstream sfn next) as (-> & _).
  destruct (go_only_trace
              ((fun item => GoDispatchToStreamFn sfn item next) <$> taken_items upstream))
    as (-> & _).
  induction (taken_items upstream) as [|item items IH]; cbn; [done|].
  rewrite IH. f_equal.
  rewrite dispatchToStreamFn_trace.
  by destruct (sfn tt).2 as [|f0 [|f1 fs]].
Qed.

(** X5: with two replicas or more, every item the send side takes from
    upstream is sent to the first replica of the list: the dispatch of each
    item finds the rotation counter at zero, moves it to one and selects
    index zero, so the counter never advances from one item to the next. *)
Theorem pipeStreamFn_send_rotation_never_advances
    (upstream : list (Select DataFrame)) (sfn : GetStreamFunc)
    (f0 f1 : StreamFunc) (fs : list StreamFunc) (next : Chan) :
  (sfn tt).2 = f0 :: f1 :: fs ->
  send_tasks (pipeStreamFn_send upstream sfn next).1
  = (fun item => GoSendDataToStreamFn (sfn tt).1 (session f0) (cancel f0) item next)
      <$> taken_items upstream
  /\ (fun k => counter_ops (run k).1) <$> spawned (pipeStreamFn_send upstream sfn next).1
     = (fun _ => [(0, 1)%Z]) <$> taken_items upstream.
Proof.
  intros Hfuncs. split.
  - rewrite pipeline_send_tasks, Hfuncs.
    induction (taken_items upstream) as [|item items IH]; [done|].
    by rewrite bind_cons, IH.
  - destruct (pipeStreamFn_send_trace upstream sfn next) as (-> & _).
    destruct (go_only_trace
                ((fun item => GoDispatchToStreamFn sfn item next) <$> taken_items upstream))
      as (-> & _).
    induction (taken_items upstream) as [|item items IH]; [done|].
    rewrite !fmap_cons, IH. f_equal.
    cbn [run_task]. rewrite dispatchToStreamFn_trace. by rewrite Hfuncs.
Qed.

(** X8: with an empty replica list the send side drops every item it takes
    from upstream: the dispatch of each item only logs the line "no
    available sessions" and returns, and no send task is started. *)
Theorem pipeStreamFn_send_drops_without_replicas
    (upstream : list (Select DataFrame)) (sfn : GetStreamFunc) (next : Chan) :
  (sfn tt).2 = [] ->
  send_tasks (pipeStreamFn_send upstream sfn next).1 = []
  /\ run <$> spawned (pipeStreamFn_send upstream sfn next).1
     = (fun _ => ([EvLog Info "no available sessions in stream fn."], Ret tt))
         <$> taken_items upstream.
Proof.
  intros Hfuncs. split.
  - rewrite pipeline_send_tasks, Hfuncs.
    induction (taken_items upstream) as [|item items IH]; cbn; done.
  - destruct (pipeStreamFn_send_trace upstream sfn next) as (-> & _).
    destruct (go_only_trace
                ((fun item => GoDispatchToStreamFn sfn item next) <$> taken_items upstream))
      as (-> & _).
    induction (taken_items upstream) as [|item items IH]; cbn; [done|].
    rewrite IH. f_equal.
    rewrite dispatchToStreamFn_trace. by rewrite Hfuncs.
Qed.

(** X9: when the session of the first replica is nil, every item the send
    side takes from upstream gets a send task that opens no sub-stream and
    tries to pass the item through.  When the output channel takes the send
    the task sends the item, unchanged, once and calls the cancel of that
    replica, so the cancel is called once for every item passed through;
    when the channel is closed by then the task panics, and when it stays
    full the task never returns: in both cases the item is not forwarded
    and the cancel is not called. *)
Theorem pipeStreamFn_send_passes_through_nil_replica
    (upstream : list (Select DataFrame)) (sfn : GetStreamFunc)
    (f : StreamFunc) (fs : list StreamFunc) (next : Chan) :
  (sfn tt).2 = f :: fs ->
  session f = None ->
  (fun k => let r := run k in (r.2, sends r.1, cancels r.1, opens r.1))
    <$> send_tasks (pipeStreamFn_send upstream sfn next).1
  = (fun item =>
       passthrough_result
         (status (GoSendDataToStreamFn (sfn tt).1 None (cancel f) item next))
         next item (cancel f))
      <$> taken_items upstream.
Proof.
  intros Hfuncs Hnil. rewrite pipeline_send_tasks, Hfuncs, Hnil.
  induction (taken_items upstream) as [|item items IH]; [done|].
  rewrite bind_cons, fmap_app, IH, !fmap_cons. cbn [fmap list_fmap app].
  f_equal. cbn [run_task]. unfold passthrough_result.
  by destruct (status _).
Qed.

(** X10: when the first replica has a session whose OpenUniStream succeeds
    and whose sub-stream takes every write, every item the send side takes
    from upstream is encoded and written once on that sub-stream; nothing
    is sent on the output channel and no cancel is called. *)
Theorem pipeStreamFn_send_delivers_to_first_replica
    (upstream : list (Select DataFrame)) (sfn : GetStreamFunc)
    (f : StreamFunc) (fs : list StreamFunc) (conn : quic.Conn)
    (stream : quic.SendStream) (next : Chan) :
  (sfn tt).2 = f :: fs ->
  session f = Some conn ->
  quic.OpenUniStream conn = inl stream ->
  (forall bytes, quic.Write stream bytes = None) ->
  (fun k => let r := run k in (r.2, writes r.1, sends r.1, cancels r.1))
    <$> send_tasks (pipeStreamFn_send upstream sfn next).1
  = (fun item => (Ret tt, [(quic.send_id stream, Encode item)], [], []))
      <$> taken_items upstream.
Proof.
  intros Hfuncs Hconn Hopen Hwrite. rewrite pipeline_send_tasks, Hfuncs, Hconn.
  induction (taken_items upstream) as [|item items IH]; [done|].
  rewrite bind_cons, fmap_app, IH, !fmap_cons. cbn [fmap list_fmap app].
  f_equal. cbn [run_task]. unfold sendDataToStreamFn. rewrite Hopen, Hwrite.
  by destruct (NewSpanFromData _ _ _).
Qed.

End SendSide.

(** X5 at three replicas: a and b both go to the first replica, c comes
    after upstream is closed and is not taken. *)
Lemma pipeStreamFn_send_rotation_never_advances_witness :
  let upstream := [SelRecv frame_a; SelRecv frame_b; SelClosed; SelRecv frame_c] in
  spawned_by_tasks carriageEncode noSpan connectionClosed allReady Background
    (pipeStreamFn_send upstream threeReplicas 1).1
  = (fun item => GoSendDataToStreamFn "fn" (Some (goodConn 0)) 100 item 1)
      <$> [frame_a; frame_b]
  /\ (fun k => counter_ops
                 (run_task carriageEncode noSpan connectionClosed allReady Background k).1)
       <$> spawned (pipeStreamFn_send upstream threeReplicas 1).1
     = [[(0, 1)%Z]; [(0, 1)%Z]].
Proof.
  apply (pipeStreamFn_send_rotation_never_advances carriageEncode noSpan
           connectionClosed allReady Background
           [SelRecv frame_a; SelRecv frame_b; SelClosed; SelRecv frame_c]
           threeReplicas (replica 0) (replica 1) [replica 2] 1).
  reflexivity.
Defined.

(** X8 at a stage without replicas: a and b are dropped, c comes after the
    context is done and is not taken. *)
Lemma pipeStreamFn_send_drops_without_replicas_witness :
  let upstream := [SelRecv frame_a; SelRecv frame_b; SelDone; SelRecv frame_c] in
  spawned_by_tasks carriageEncode noSpan connectionClosed allReady Background
    (pipeStreamFn_send upstream noReplica 1).1 = []
  /\ run_task carriageEncode noSpan connectionClosed allReady Background
       <$> spawned (pipeStreamFn_send upstream noReplica 1).1
     = (fun _ => ([EvLog Info "no available sessions in stream fn."], Ret tt))
         <$> [frame_a; frame_b].
Proof.
  apply (pipeStreamFn_send_drops_without_replicas carriageEncode noSpan
           connectionClosed allReady Background
           [SelRecv frame_a; SelRecv frame_b; SelDone; SelRecv frame_c] noReplica 1).
  reflexivity.
Defined.

(** X9 at a stage whose one replica has a nil session: the output channel
    takes the send of a and is closed by the time b is sent. *)
Lemma pipeStreamFn_send_passes_through_nil_replica_witness :
  let upstream := [SelRecv frame_a; SelRecv frame_b; SelClosed] in
  (fun k => let r := run_task carriageEncode noSpan connectionClosed
                       closedAfter_a Background k in
            (r.2, sends r.1, cancels r.1, opens r.1))
    <$> spawned_by_tasks carriageEncode noSpan connectionClosed closedAfter_a Background
          (pipeStreamFn_send upstream nilReplica 1).1
  = [(Ret tt, [(1, frame_a)], [100], []);
     (Panic "send on closed channel", [], [], [])].
Proof.
  apply (pipeStreamFn_send_passes_through_nil_replica carriageEncode noSpan
           connectionClosed closedAfter_a Background
           [SelRecv frame_a; SelRecv frame_b; SelClosed] nilReplica
           (mkStreamFunc None 100) [] 1); reflexivity.
Defined.

(** X10 at a stage with one replica that takes every write, with the output
    channel closed. *)
Lemma pipeStreamFn_send_delivers_to_first_replica_witness :
  let upstream := [SelRecv frame_a; SelRecv frame_b; SelClosed] in
  (fun k => let r := run_task carriageEncode noSpan connectionClosed allClosed Background k in
            (r.2, writes r.1, sends r.1, cancels r.1))
    <$> spawned_by_tasks carriageEncode noSpan connectionClosed allClosed Background
          (pipeStreamFn_send upstream oneReplica 1).1
  = [(Ret tt, [(10, [x61%byte])], [], []); (Ret tt, [(10, [x62%byte])], [], [])].
Proof.
  apply (pipeStreamFn_send_delivers_to_first_replica carriageEncode noSpan
           connectionClosed allClosed Background
           [SelRecv frame_a; SelRecv frame_b; SelClosed] oneReplica
           (replica 0) [] (goodConn 0) (goodStream 10) 1); reflexivity.
Defined.

(** ** The readers and the context *)

Lemma data_frames_ok (frames : list Frame) :
  data_frames (quic.ParseOk <$> frames) = omap as_DataFrame frames.
Proof.
  unfold data_frames. induction frames as [|f frames IH]; cbn; [done|].
  destruct (as_DataFrame f); cbn; by rewrite IH.
Qed.

Lemma sourceLoop_cancelled (frames : list Frame) (rest : quic.ReceiveStream)
    (next : Chan) (k : nat) :
  let r := sourceLoop (cancelledAt (k + length frames)) k
             ((quic.ParseOk <$> frames) ++ rest) next in
  r.2 = Ret tt /\ parsed r.1 = quic.ParseOk <$> frames.
Proof.
  revert k. induction frames as [|f frames IH]; intros k.
  - cbn [length fmap list_fmap app]. rewrite Nat.add_0_r.
    destruct rest as [|p rest]; cbn; unfold cancelledAt; by rewrite Nat.leb_refl.
  - cbn [length fmap list_fmap app sourceLoop].
    assert (Hk : cancelledAt (k + S (length frames)) k = false)
      by (apply Nat.leb_gt; lia).
    rewrite Hk.
    specialize (IH (S k)).
    replace (S k + length frames) with (k + S (length frames)) in IH by lia.
    cbn zeta in IH.
    destruct (sourceLoop (cancelledAt (k + S (length frames))) (S k)
                ((quic.ParseOk <$> frames) ++ rest) next) as [t o].
    cbn in IH. destruct IH as (-> & Hp).
    destruct f as [d|c]; cbn; by rewrite Hp.
Qed.

Lemma sourceLoop_alive (frames : list Frame) (next : Chan) (k : nat) :
  let r := sourceLoop Background k (quic.ParseOk <$> frames) next in
  r.2 = Block /\ parsed r.1 = quic.ParseOk <$> frames.
Proof.
  revert k. induction frames as [|f frames IH]; intros k; cbn; [done|].
  specialize (IH (S k)). cbn zeta in IH.
  destruct (sourceLoop Background (S k) (quic.ParseOk <$> frames) next) as [t o].
  cbn in IH. destruct IH as (-> & Hp).
  destruct f as [d|c]; cbn; by rewrite Hp.
Qed.

(** X11: when the context is cancelled after the source reader has parsed
    [frames], the reader sees it at its next poll and returns: it has sent
    the data frames of [frames], it parses nothing of what the stream still
    carries, and it has closed the output channel exactly once. *)
Theorem readDataFromSource_stops_when_cancelled
    (frames : list Frame) (rest : quic.ReceiveStream) (next : Chan) :
  let r := readDataFromSource (cancelledAt (length frames))
             ((quic.ParseOk <$> frames) ++ rest) next in
  r.2 = Ret tt
  /\ parsed r.1 = quic.ParseOk <$> frames
  /\ sends r.1 = pair next <$> omap as_DataFrame frames
  /\ closes r.1 = [next].
Proof.
  cbn zeta. unfold readDataFromSource.
  destruct (defer_close
              (sourceLoop (cancelledAt (length frames)) 0
                 ((quic.ParseOk <$> frames) ++ rest) next) next)
    as (Ho & Hs & Hp & _ & Hc).
  destruct (sourceLoop_cancelled frames rest next 0) as (Hr & Hq).
  destruct (sourceLoop_trace (cancelledAt (length frames))
              ((quic.ParseOk <$> frames) ++ rest) next 0) as (Ts & _ & _ & Tc & _).
  cbn [Nat.add] in Hr, Hq.
  rewrite Ho, Hs, Hp, Hc, Ts, Tc, Hr, Hq, data_frames_ok. done.
Qed.

(** X12: as long as the stream delivers frames without a parse failure and
    the context is not cancelled, the source reader neither returns nor
    closes its output channel: after the last frame it waits in the next
    read, having sent every data frame among them, in order. *)
Theorem readDataFromSource_keeps_channel_open
    (frames : list Frame) (next : Chan) :
  let r := readDataFromSource Background (quic.ParseOk <$> frames) next in
  r.2 = Block
  /\ closes r.1 = []
  /\ parsed r.1 = quic.ParseOk <$> frames
  /\ sends r.1 = pair next <$> omap as_DataFrame frames.
Proof.
  cbn zeta. unfold readDataFromSource.
  destruct (defer_close (sourceLoop Background 0 (quic.ParseOk <$> frames) next) next)
    as (Ho & Hs & Hp & _ & Hc).
  destruct (sourceLoop_alive frames next 0) as (Hr & Hq).
  destruct (sourceLoop_trace Background (quic.ParseOk <$> frames) next 0)
    as (Ts & _ & _ & Tc & _).
  rewrite Ho, Hs, Hp, Hc, Ts, Tc, Hr, Hq, data_frames_ok. done.
Qed.

Section ReadUnitMore.

Variable NewSpanFromData : string -> string -> string -> option nat.

Local Abbreviation readLoop' := (readLoop NewSpanFromData).

Lemma readLoop_cancelled (st : ChanStatus) (name : string) (ks : list N)
    (rest : quic.ReceiveStream) (next : Chan) (k : nat) :
  let r := readLoop' st (cancelledAt (k + length ks)) k name
             (control_frames ks ++ rest) next in
  r.2 = Ret tt /\ sends r.1 = [] /\ new_spans r.1 = []
  /\ parsed r.1 = control_frames ks.
Proof.
  revert k. induction ks as [|c ks IH]; intros k.
  - cbn [length control_frames fmap list_fmap app]. rewrite Nat.add_0_r.
    destruct rest as [|p rest]; cbn; unfold cancelledAt; by rewrite Nat.leb_refl.
  - change (control_frames (c :: ks))
      with (quic.ParseOk (FControl c) :: control_frames ks).
    cbn [length app readLoop].
    assert (Hk : cancelledAt (k + S (length ks)) k = false)
      by (apply Nat.leb_gt; lia).
    rewrite Hk.
    specialize (IH (S k)).
    replace (S k + length ks) with (k + S (length ks)) in IH by lia.
    cbn zeta in IH.
    destruct (readLoop' st (cancelledAt (k + S (length ks))) (S k) name
                (control_frames ks ++ rest) next) as [t o].
    cbn -[control_frames] in IH. destruct IH as (-> & Hs & Hn & Hp).
    cbn -[control_frames]. by rewrite Hs, Hn, Hp.
Qed.

(** X13: when the context is cancelled while the reply read unit is
    skipping frames that are not data frames, the unit sees it at its next
    poll and returns without sending: what the sub-stream still carries,
    even a data frame, is not parsed.  The state of the output channel
    plays no part. *)
Theorem readDataFromStreamFn_stops_when_cancelled
    (st : ChanStatus)
    (name : string) (ks : list N) (rest : quic.ReceiveStream) (next : Chan) :
  let r := readDataFromStreamFn NewSpanFromData st (cancelledAt (length ks)) name
             (control_frames ks ++ rest) next in
  r.2 = Ret tt
  /\ sends r.1 = []
  /\ parsed r.1 = control_frames ks.
Proof.
  cbn zeta. unfold readDataFromStreamFn.
  destruct (readLoop_cancelled st name ks rest next 0) as (Hr & Hs & _ & Hp).
  done.
Qed.

(** X14: the reply read unit asks for a tracing span only for the data
    frame it parsed and is about to forward, with the carriage of that
    frame; when the output channel takes the send this is the frame it
    sends, otherwise it sends nothing.  Every span it gets is ended exactly
    once when the unit finishes, also when the send panics; only a unit
    stuck for ever in the send leaves its span open.  A run that parses no
    data frame touches no span. *)
Theorem readDataFromStreamFn_span
    (st : ChanStatus)
    (ctx : Context) (name : string) (stream : quic.ReceiveStream) (next : Chan) :
  let r := readDataFromStreamFn NewSpanFromData st ctx name stream next in
  let span_for := fun d : DataFrame =>
    NewSpanFromData (String.string_of_list_byte (GetCarriage d))
      name ("zipper-receive-from-" +:+ name) in
  new_spans r.1 = span_for <$> data_frames (parsed r.1)
  /\ match st with
     | ChanReady =>
         new_spans r.1 = (fun s => span_for s.2) <$> sends r.1
         /\ span_ends r.1 = omap id (new_spans r.1)
     | _ => sends r.1 = []
     end
  /\ span_ends r.1 = match r.2 with
                     | Block => []
                     | _ => omap id (new_spans r.1)
                     end.
Proof.
  cbn zeta. unfold readDataFromStreamFn. generalize 0.
  induction stream as [|p rest IH]; intros k; cbn.
  - destruct (ctx k); destruct st; cbn; done.
  - destruct (ctx k); cbn; [by destruct st|].
    destruct p as [[d|c]|err]; cbn.
    + destruct (NewSpanFromData _ _ _) eqn:E; destruct st; cbn; rewrite ?E; done.
    + specialize (IH (S k)).
      destruct (readLoop' st ctx (S k) name rest next) as [t o].
      cbn in IH. destruct IH as (Hn & Hs & He).
      destruct o; cbn; done.
    + by destruct st.
Qed.

End ReadUnitMore.

(** ** The goroutine of a pipe *)

Lemma receiveLoop_events (ch : list (Select quic.Session)) (name : string) (next : Chan) :
  (receiveLoop ch name next).1
  = EvGo <$> ((fun conn => GoAcceptLoop name conn next) <$> live_sessions ch).
Proof.
  induction ch as [|[|[conn|]|] ch IH]; cbn; try done.
  destruct (receiveLoop ch name next) as [t o]. cbn in *. by rewrite IH.
Qed.

Lemma pipe_receive_trace
    (upstream : list (Select DataFrame))
    (deliveries : SessionChan -> list (Select quic.Session))
    (sfn : GetStreamFunc) (next : Chan) (d : Directory) :
  let p := pipeStreamFn_go upstream deliveries sfn next d in
  let ch := deliveries (sessionQueue sfn d).1 in
  pipe_receive p
  = (((EvGo <$> ((fun conn => GoAcceptLoop (sfn tt).1 conn next) <$> live_sessions ch))
      ++ if ends_loop ch then [EvChanClose next] else []),
     if ends_loop ch then Ret tt else Block).
Proof.
  cbn zeta. unfold pipeStreamFn_go, receiveResponseFromStreamFn. cbn [pipe_receive].
  destruct (sessionQueue sfn d) as [q d']. cbn [fst snd].
  destruct (receiveLoop_trace (deliveries q) (sfn tt).1 next) as (_ & _ & Ho).
  pose proof (receiveLoop_events (deliveries q) (sfn tt).1 next) as Ht.
  destruct (receiveLoop (deliveries q) (sfn tt).1 next) as [t o].
  cbn in Ho, Ht. subst t o.
  destruct (ends_loop (deliveries q)); cbn; [done|]. by rewrite app_nil_r.
Qed.

(** X15: the goroutine of a pipe closes the output channel exactly once,
    as its last operation, when the reply receiver ends (the context is
    done or the session queue is closed), whatever the send loop is doing,
    and it does not close it before; neither the goroutine nor its send
    loop sends on the output channel themselves, and the send loop never
    closes it. *)
Theorem pipeStreamFn_go_closes_when_receiver_ends
    (upstream : list (Select DataFrame))
    (deliveries : SessionChan -> list (Select quic.Session))
    (sfn : GetStreamFunc) (next : Chan) (d : Directory) :
  let p := pipeStreamFn_go upstream deliveries sfn next d in
  let ch := deliveries (sessionQueue sfn d).1 in
  closes (pipe_receive p).1 = (if ends_loop ch then [next] else [])
  /\ (pipe_receive p).2 = (if ends_loop ch then Ret tt else Block)
  /\ (if ends_loop ch then last (pipe_receive p).1 = Some (EvChanClose next)
      else closes (pipe_receive p).1 = [])
  /\ sends (pipe_receive p).1 = []
  /\ sends (pipe_send p).1 = []
  /\ closes (pipe_send p).1 = [].
Proof.
  cbn zeta. rewrite pipe_receive_trace. cbn [fst snd].
  set (tasks := (fun conn => GoAcceptLoop (sfn tt).1 conn next)
                  <$> live_sessions (deliveries (sessionQueue sfn d).1)).
  destruct (go_only_trace tasks) as (_ & Hs & Hc & _).
  destruct (pipeStreamFn_send_trace upstream sfn next) as (Ht & _).
  destruct (go_only_trace
              ((fun item => GoDispatchToStreamFn sfn item next) <$> taken_items upstream))
    as (_ & Hs' & Hc' & _).
  unfold pipeStreamFn_go. cbn [pipe_send]. rewrite Ht, Hs', Hc'.
  unfold closes, sends in *. rewrite !omap_app, Hs, Hc.
  destruct (ends_loop _); cbn; rewrite ?last_snoc; done.
Qed.

(** ** The pipeline composer *)

Lemma start_pipeStreamFn_step (upstream : Chan) (sfn : GetStreamFunc) (rt : Runtime) :
  start_pipeStreamFn upstream sfn rt
  = (length (chans rt),
     mkRuntime (chans rt ++ [bufferSize])
       (goroutines rt ++ [GoPipeStreamFn upstream sfn (length (chans rt))])).
Proof. reflexivity. Qed.

Lemma pipes_fold (sfns : list GetStreamFunc) (next : Chan) (rt : Runtime) :
  length (chans rt) = S next ->
  let r := foldl (fun st sfn => start_pipeStreamFn st.1 sfn st.2) (next, rt) sfns in
  r.1 = next + length sfns
  /\ chans r.2 = chans rt ++ replicate (length sfns) bufferSize
  /\ goroutines r.2 = goroutines rt ++ pipes next sfns.
Proof.
  revert next rt. induction sfns as [|sfn sfns IH]; intros next rt Hlen r; subst r.
  - cbn. rewrite !app_nil_r. repeat split; lia.
  - cbn [foldl fst snd length replicate pipes].
    rewrite start_pipeStreamFn_step, Hlen.
    destruct (IH (S next)
                (mkRuntime (chans rt ++ [bufferSize])
                   (goroutines rt ++ [GoPipeStreamFn next sfn (S next)])))
      as (H1 & H2 & H3).
    { cbn [chans]. rewrite length_app. cbn [length]. lia. }
    cbn [chans goroutines] in H2, H3. split; [|split].
    + etrans; [exact H1|lia].
    + etrans; [exact H2|]. by rewrite <- app_assoc.
    + etrans; [exact H3|]. by rewrite <- app_assoc.
Qed.

Lemma pipes_channels (sfns : list GetStreamFunc) (upstream : Chan) :
  output_of <$> pipes upstream sfns = seq (S upstream) (length sfns)
  /\ omap input_of (pipes upstream sfns) = seq upstream (length sfns).
Proof.
  revert upstream. induction sfns as [|sfn sfns IH]; intros upstream; cbn; [done|].
  destruct (IH (S upstream)) as (-> & ->). done.
Qed.

Lemma DispatcherWithFunc_closed_form
    (sfns : list GetStreamFunc) (stream : quic.ReceiveStream) (rt : Runtime) :
  let r := DispatcherWithFunc sfns stream rt in
  let source := length (chans rt) in
  r.1 = source + length sfns
  /\ chans r.2 = chans rt ++ replicate (S (length sfns)) bufferSize
  /\ started_since rt r.2 = GoReadDataFromSource stream source :: pipes source sfns.
Proof.
  cbn zeta. unfold DispatcherWithFunc, started_since.
  change (start_readDataFromSource stream rt)
    with (length (chans rt),
          mkRuntime (chans rt ++ [bufferSize])
            (goroutines rt ++ [GoReadDataFromSource stream (length (chans rt))])).
  destruct (pipes_fold sfns (length (chans rt))
              (mkRuntime (chans rt ++ [bufferSize])
                 (goroutines rt ++ [GoReadDataFromSource stream (length (chans rt))])))
    as (H1 & H2 & H3).
  { cbn [chans]. rewrite length_app. cbn [length]. lia. }
  cbn [chans goroutines] in H2, H3. split; [|split].
  - exact H1.
  - etrans; [exact H2|]. by rewrite <- app_assoc.
  - etrans; [apply (f_equal (drop (length (goroutines rt))) H3)|].
    by rewrite <- app_assoc, drop_app_length.
Qed.

(** X16: DispatcherWithFunc makes one channel of capacity 100 for the source
    reader and one for every stage, and starts one goroutine for each.  The
    first stage reads the channel the source reader writes and every later
    stage reads the channel the stage before it writes; the channel returned
    is the one the last stage writes (with no stage: the one the source
    reader writes), and no goroutine of the pipeline reads it. *)
Theorem DispatcherWithFunc_chains_stages
    (sfns : list GetStreamFunc) (stream : quic.ReceiveStream) (rt : Runtime) :
  let r := DispatcherWithFunc sfns stream rt in
  let source := length (chans rt) in
  let gs := started_since rt r.2 in
  r.1 = source + length sfns
  /\ chans r.2 = chans rt ++ replicate (S (length sfns)) bufferSize
  /\ gs = GoReadDataFromSource stream source :: pipes source sfns
  /\ output_of <$> gs = seq source (S (length sfns))
  /\ omap input_of gs = seq source (length sfns)
  /\ last (output_of <$> gs) = Some r.1
  /\ r.1 ∉ omap input_of gs.
Proof.
  cbn zeta.
  destruct (DispatcherWithFunc_closed_form sfns stream rt) as (H1 & H2 & H3).
  destruct (pipes_channels sfns (length (chans rt))) as (Ho & Hi).
  rewrite H1, H2, H3. cbn [fmap list_fmap omap list_omap input_of output_of].
  fold (fmap (M:=list) output_of). fold (omap (M:=list) input_of).
  rewrite Ho, Hi. repeat split; try done.
  - change (length (chans rt) :: seq (S (length (chans rt))) (length sfns))
      with (seq (length (chans rt)) (S (length sfns))).
    rewrite seq_S, last_snoc. done.
  - rewrite elem_of_seq. lia.
Qed.

Lemma run_goroutine_closes (ctx : Context)
    (recv : Chan -> list (Select DataFrame))
    (deliveries : SessionChan -> list (Select quic.Session))
    (d : Directory) (g : Goroutine) :
  closes (run_goroutine ctx recv deliveries d g).1 ⊆ [output_of g]
  /\ NoDup (closes (run_goroutine ctx recv deliveries d g).1).
Proof.
  destruct g as [stream next|upstream sfn next]; cbn [run_goroutine output_of].
  - unfold readDataFromSource.
    destruct (defer_close (sourceLoop ctx 0 stream next) next) as (_ & _ & _ & _ & ->).
    destruct (sourceLoop_trace ctx stream next 0) as (_ & _ & _ & -> & _).
    destruct (sourceLoop ctx 0 stream next).2; cbn;
      (split; [set_solver|]); try apply NoDup_singleton; apply NoDup_nil_2.
  - rewrite pipe_receive_trace. cbn [fst].
    set (tasks := (fun conn => GoAcceptLoop (sfn tt).1 conn next) <$> _).
    destruct (go_only_trace tasks) as (_ & _ & Hc & _).
    unfold closes in *. rewrite omap_app, Hc.
    destruct (ends_loop _); cbn;
      (split; [set_solver|]); try apply NoDup_singleton; apply NoDup_nil_2.
Qed.

(** X17: in a pipeline built by DispatcherWithFunc no channel is closed
    twice: whatever the context, the streams and the queues do, every
    goroutine closes at most its own output channel, at most once, and the
    output channels of the goroutines are pairwise different. *)
Theorem DispatcherWithFunc_no_double_close
    (sfns : list GetStreamFunc) (stream : quic.ReceiveStream) (rt : Runtime)
    (ctx : Goroutine -> Context)
    (recv : Chan -> list (Select DataFrame))
    (deliveries : SessionChan -> list (Select quic.Session))
    (d : Goroutine -> Directory) :
  let gs := started_since rt (DispatcherWithFunc sfns stream rt).2 in
  NoDup (g ← gs; closes (run_goroutine (ctx g) recv deliveries (d g) g).1).
Proof.
  cbn zeta.
  destruct (DispatcherWithFunc_closed_form sfns stream rt) as (_ & _ & H3).
  destruct (pipes_channels sfns (length (chans rt))) as (Ho & _).
  assert (Hout : NoDup (output_of <$> started_since rt (DispatcherWithFunc sfns stream rt).2)).
  { rewrite H3. cbn [fmap list_fmap output_of]. fold (fmap (M:=list) output_of).
    rewrite Ho.
    change (NoDup (seq (length (chans rt)) (S (length sfns)))). apply NoDup_seq. }
  clear H3 Ho.
  induction (started_since rt (DispatcherWithFunc sfns stream rt).2) as [|g gs IH];
    [apply NoDup_nil_2|].
  rewrite fmap_cons in Hout. apply NoDup_cons in Hout as (Hg & Hgs).
  rewrite bind_cons. apply NoDup_app.
  destruct (run_goroutine_closes (ctx g) recv deliveries (d g) g) as (Hsub & Hnd).
  split; [done|]. split; [|by apply IH].
  intros ch Hch Hin. apply Hsub in Hch. apply list_elem_of_singleton in Hch. subst ch.
  apply list_elem_of_bind in Hin as (g' & Hin & Hg').
  destruct (run_goroutine_closes (ctx g') recv deliveries (d g') g') as (Hsub' & _).
  apply Hsub', list_elem_of_singleton in Hin.
  apply Hg. rewrite Hin. by apply list_elem_of_fmap_2.
Qed.

(** ** The session directory over time *)

(** X18: after reply receivers were started for the stages [sfns], the
    directory has an entry exactly for the names it had before and the names
    of these stages, and one session queue was made for every receiver
    started, also for those that found their entry already there. *)
Theorem receivers_directory_entries (sfns : list GetStreamFunc) (d : Directory) :
  dom (newStreamFuncSessionCache (receivers sfns d))
  = dom (newStreamFuncSessionCache d) ∪ list_to_set (stage_name <$> sfns)
  /\ made (receivers sfns d) = made d + length sfns.
Proof.
  revert d. induction sfns as [|sfn sfns IH]; intros d.
  - cbn. split; [by rewrite (right_id_L ∅ (∪))|lia].
  - change (receivers (sfn :: sfns) d) with (receivers sfns (sessionQueue sfn d).2).
    destruct (IH (sessionQueue sfn d).2) as (Hd & Hm). rewrite Hd, Hm.
    destruct (sessionQueue_spec sfn d) as (_ & Hc & Hs). rewrite Hc, Hs.
    rewrite dom_insert_L, fmap_cons, list_to_set_cons. unfold stage_name at 2.
    cbn [length]. split; [|lia].
    by rewrite (assoc_L (∪)), (comm_L (∪) _ {[ (sfn tt).1 ]}).
Qed.

Lemma sessionQueue_apart (sfn : GetStreamFunc) (d : Directory) :
  queues_apart d -> queues_apart (sessionQueue sfn d).2.
Proof.
  intros (Hlt & Hinj).
  destruct (sessionQueue_spec sfn d) as (Hq & Hc & Hm). cbn zeta in Hq, Hc, Hm.
  revert Hq Hc Hm.
  generalize (sessionQueue sfn d). generalize (sfn tt).1.
  intros name [q' d'] Hq Hc Hm. cbn [fst snd] in *.
  destruct (newStreamFuncSessionCache d !! name) as [q|] eqn:E; cbn in Hq; subst q'.
  - rewrite insert_id in Hc by done. split.
    + intros n q' H. rewrite Hc in H. apply Hlt in H. lia.
    + intros n1 n2 q1 q2. rewrite Hc. apply Hinj.
  - split.
    + intros n q' H. rewrite Hc in H. rewrite Hm.
      destruct (decide (name = n)) as [Heq|Hne].
      * rewrite <- Heq, lookup_insert_eq in H. injection H as <-. cbn. lia.
      * rewrite lookup_insert_ne in H by done. apply Hlt in H. lia.
    + intros n1 n2 q1 q2. rewrite Hc.
      destruct (decide (name = n1)) as [Heq1|Hne1];
        destruct (decide (name = n2)) as [Heq2|Hne2].
      * congruence.
      * rewrite <- Heq1, lookup_insert_eq, lookup_insert_ne by done.
        intros [= <-] H2 Hid. apply Hlt in H2. cbn in Hid. lia.
      * rewrite <- Heq2, lookup_insert_eq, lookup_insert_ne by done.
        intros H1 [= <-] Hid. apply Hlt in H1. cbn in Hid. lia.
      * rewrite !lookup_insert_ne by done. apply Hinj.
Qed.

Lemma receivers_apart (sfns : list GetStreamFunc) (d : Directory) :
  queues_apart d -> queues_apart (receivers sfns d).
Proof.
  revert d. induction sfns as [|sfn sfns IH]; intros d Hd; cbn; [done|].
  by apply IH, sessionQueue_apart.
Qed.

(** X19: in a process that starts with an empty directory, two stages with
    different names never share a session queue, however many reply
    receivers are started and in whatever order. *)
Theorem receivers_distinct_queues
    (sfns : list GetStreamFunc) (n1 n2 : string) (q1 q2 : SessionChan) :
  n1 <> n2 ->
  newStreamFuncSessionCache (receivers sfns emptyDirectory) !! n1 = Some q1 ->
  newStreamFuncSessionCache (receivers sfns emptyDirectory) !! n2 = Some q2 ->
  chan_id q1 <> chan_id q2.
Proof.
  intros Hne H1 H2 Hid. apply Hne.
  destruct (receivers_apart sfns emptyDirectory) as (_ & Hinj).
  { split; intros *; by cbn. }
  by apply (Hinj n1 n2 q1 q2).
Qed.

(** X19 at the stages "fn", "sink", "fn": the queues of "fn" and "sink"
    are the first and the second queue made. *)
Lemma receivers_distinct_queues_witness :
  chan_id (mkSessionChan 0 5) <> chan_id (mkSessionChan 1 5).
Proof.
  apply (receivers_distinct_queues [oneReplica; otherStage; oneReplica]
           "fn" "sink" (mkSessionChan 0 5) (mkSessionChan 1 5)).
  - discriminate.
  - vm_compute. reflexivity.
  - vm_compute. reflexivity.
Defined.

(** ** The reply side of a stage *)

Section ReplySide.

Variable Encode : DataFrame -> list byte.
Variable NewSpanFromData : string -> string -> string -> option nat.
Variable ErrConnectionClosed : string.
Variable status : Task -> ChanStatus.

Local Abbreviation run :=
  (run_task Encode NewSpanFromData ErrConnectionClosed status Background).
Local Abbreviation read_tasks :=
  (spawned_by_tasks Encode NewSpanFromData ErrConnectionClosed status Background).

Lemma readLoop_first_data_frame (st : ChanStatus) (name : string)
    (stream : quic.ReceiveStream) (next : Chan) (k : nat) :
  let r := readLoop NewSpanFromData st Background k name stream next in
  sends r.1 = reply_sent st next stream
  /\ r.2 = match first_data_frame stream with
           | Some _ =>
               match st with
               | ChanReady => Ret tt
               | ChanClosed => Panic "send on closed channel"
               | ChanFull => Block
               end
           | None => if fails_before_reply stream then Ret tt else Block
           end.
Proof.
  unfold reply_sent.
  revert k. induction stream as [|p rest IH]; intros k; cbn; [by destruct st|].
  destruct p as [[d|c]|err]; cbn.
  - destruct (NewSpanFromData _ _ _); destruct st; cbn; done.
  - specialize (IH (S k)).
    destruct (readLoop NewSpanFromData st Background (S k) name rest next) as [t o].
    cbn in IH. destruct IH as (Hs & ->).
    destruct (first_data_frame rest); [by destruct st; cbn; rewrite Hs|].
    destruct (fails_before_reply rest); cbn; by rewrite Hs.
  - by destruct st.
Qed.

(** X20: with the context not cancelled, the reply read unit reaches its
    send exactly when its sub-stream carries a data frame with no parse
    failure before it, and the frame it sends is the first such frame.
    When the output channel takes the send the unit sends that frame and
    returns; when the channel is closed by then the unit panics, and when
    it stays full the unit never returns, in both cases without the frame
    being forwarded.  Without such a frame nothing is sent: the unit
    returns at the parse failure, and waits in a read when the sub-stream
    carries neither. *)
Theorem readDataFromStreamFn_first_data_frame
    (st : ChanStatus) (name : string) (stream : quic.ReceiveStream) (next : Chan) :
  let r := readDataFromStreamFn NewSpanFromData st Background name stream next in
  sends r.1 = reply_sent st next stream
  /\ r.2 = match first_data_frame stream with
           | Some _ =>
               match st with
               | ChanReady => Ret tt
               | ChanClosed => Panic "send on closed channel"
               | ChanFull => Block
               end
           | None => if fails_before_reply stream then Ret tt else Block
           end.
Proof.
  cbn zeta. unfold readDataFromStreamFn.
  destruct (readLoop_first_data_frame st name stream next 0) as (Hs & Ho).
  split; [exact Hs|exact Ho].
Qed.

Lemma readDataFromStreamFn_sends (st : ChanStatus) (name : string)
    (stream : quic.ReceiveStream) (next : Chan) :
  sends (readDataFromStreamFn NewSpanFromData st Background name stream next).1
  = reply_sent st next stream.
Proof.
  unfold readDataFromStreamFn.
  by destruct (readLoop_first_data_frame st name stream next 0) as (-> & _).
Qed.

Lemma acceptLoop_events (name : string)
    (accepts : list (quic.ReceiveStream + string)) (next : Chan) :
  spawned (acceptLoop ErrConnectionClosed name accepts next).1
  = (fun stream => GoReadDataFromStreamFn name stream next) <$> accepted accepts.
Proof.
  induction accepts as [|[stream|err] rest IH]; cbn; [done| |].
  - destruct (acceptLoop ErrConnectionClosed name rest next) as [t o].
    cbn in *. by rewrite IH.
  - by destruct (String.eqb err ErrConnectionClosed).
Qed.

Lemma accept_loop_replies (name : string)
    (accepts : list (quic.ReceiveStream + string)) (next : Chan) :
  (k ← spawned (acceptLoop ErrConnectionClosed name accepts next).1; sends (run k).1)
  = stream ← accepted accepts;
    reply_sent (status (GoReadDataFromStreamFn name stream next)) next stream.
Proof.
  rewrite acceptLoop_events.
  induction (accepted accepts) as [|stream streams IH]; [done|].
  rewrite fmap_cons, !bind_cons, IH. cbn [run_task].
  by rewrite readDataFromStreamFn_sends.
Qed.

(** X21: with the context not cancelled, the read units that the accept
    loop of a session starts put on the output channel one frame for every
    sub-stream that was accepted before the first accept error, carries a
    reply, and whose read unit finds the output channel taking its send:
    the first data frame of that sub-stream.  Sub-streams without a reply
    give nothing, and neither do read units that find the output channel
    closed or full for ever. *)
Theorem acceptLoop_one_reply_per_stream
    (name : string) (accepts : list (quic.ReceiveStream + string)) (next : Chan) :
  (k ← spawned (acceptLoop ErrConnectionClosed name accepts next).1; sends (run k).1)
  = stream ← accepted accepts;
    reply_sent (status (GoReadDataFromStreamFn name stream next)) next stream.
Proof.
  rewrite acceptLoop_events.
  induction (accepted accepts) as [|stream streams IH]; [done|].
  rewrite fmap_cons, !bind_cons, IH. cbn [run_task].
  by rewrite readDataFromStreamFn_sends.
Qed.

(** X22: with the context not cancelled, what the reply side of a stage
    puts on the output channel is, for every session that is not nil and is
    delivered on the session queue before the queue is closed, and for
    every sub-stream that session accepts before its first accept error,
    the first data frame of the sub-stream, as far as the read unit of the
    sub-stream finds the output channel taking its send; a read unit that
    comes to its send after the channel was closed contributes nothing. *)
Theorem receiveLoop_replies
    (ch : list (Select quic.Session)) (name : string) (next : Chan) :
  (k ← read_tasks (receiveLoop ch name next).1; sends (run k).1)
  = conn ← live_sessions ch;
    stream ← accepted (quic.AcceptUniStream conn);
    reply_sent (status (GoReadDataFromStreamFn name stream next)) next stream.
Proof.
  unfold spawned_by_tasks. rewrite receiveLoop_events.
  destruct (go_only_trace ((fun conn => GoAcceptLoop name conn next) <$> live_sessions ch))
    as (-> & _).
  induction (live_sessions ch) as [|conn conns IH]; [done|].
  rewrite fmap_cons, !bind_cons, bind_app, IH. f_equal.
  cbn [run_task]. apply accept_loop_replies.
Qed.

End ReplySide.

(** ** Cancellation *)

Lemma sourceLoop_late_cancel (frames : list Frame) (next : Chan) (j k : nat) :
  let r := sourceLoop (cancelledAt (S (k + length frames + j))) k
             (quic.ParseOk <$> frames) next in
  r.2 = Block /\ parsed r.1 = quic.ParseOk <$> frames /\ closes r.1 = [].
Proof.
  revert k. induction frames as [|f frames IH]; intros k.
  - cbn [length fmap list_fmap sourceLoop].
    assert (Hk : cancelledAt (S (k + 0 + j)) k = false) by (apply Nat.leb_gt; lia).
    by rewrite Hk.
  - cbn [length fmap list_fmap sourceLoop].
    assert (Hk : cancelledAt (S (k + S (length frames) + j)) k = false)
      by (apply Nat.leb_gt; lia).
    rewrite Hk.
    specialize (IH (S k)).
    replace (S (S k + length frames + j)) with (S (k + S (length frames) + j)) in IH by lia.
    cbn zeta in IH.
    destruct (sourceLoop (cancelledAt (S (k + S (length frames) + j))) (S k)
                (quic.ParseOk <$> frames) next) as [t o].
    cbn in IH. destruct IH as (-> & Hp & Hc).
    destruct f as [d|c]; cbn; by rewrite Hp, Hc.
Qed.

Lemma taken_items_until_done (items : list DataFrame) (rest : list (Select DataFrame)) :
  taken_items ((SelRecv <$> items) ++ SelDone :: rest) = items
  /\ upstream_ends ((SelRecv <$> items) ++ SelDone :: rest) = true.
Proof.
  unfold upstream_ends. induction items as [|item items (IH1 & IH2)]; cbn; [done|].
  by rewrite IH1.
Qed.

Lemma live_sessions_until_done (sessions : list quic.Session)
    (rest : list (Select quic.Session)) :
  live_sessions ((SelRecv <$> sessions) ++ SelDone :: rest) = omap id sessions
  /\ ends_loop ((SelRecv <$> sessions) ++ SelDone :: rest) = true.
Proof.
  unfold ends_loop. induction sessions as [|[conn|] sessions (IH1 & IH2)]; cbn; [done| |done].
  by rewrite IH1.
Qed.

(** C8, as the code has it: every loop sees the cancellation at its next
    poll and then stops.  The source reader that has parsed [frames] when
    the context is cancelled returns before its next read, parses nothing
    more, and has closed its channel exactly once; the send loop of a pipe
    returns at the round in which it sees the context done and dispatches
    nothing that arrives after; the goroutine of a pipe returns at the
    round in which the reply receiver sees the context done, starts no
    accept loop after it, and closes the output channel exactly once, as
    its last operation; the reply read unit returns before its next read
    without sending.  A read in progress is not interrupted: when the
    context is cancelled after the poll that came before the read, the
    source reader stays in core.ParseFrame on a stream that delivers
    nothing more, and its channel stays open. *)
Theorem cancellation_seen_at_next_poll
    (NewSpanFromData : string -> string -> string -> option nat) :
  (forall (frames : list Frame) (rest : quic.ReceiveStream) (next : Chan),
      let r := readDataFromSource (cancelledAt (length frames))
                 ((quic.ParseOk <$> frames) ++ rest) next in
      r.2 = Ret tt
      /\ parsed r.1 = quic.ParseOk <$> frames
      /\ sends r.1 = pair next <$> omap as_DataFrame frames
      /\ closes r.1 = [next])
  /\ (forall (items : list DataFrame) (rest : list (Select DataFrame))
             (sfn : GetStreamFunc) (next : Chan),
        let r := pipeStreamFn_send ((SelRecv <$> items) ++ SelDone :: rest) sfn next in
        r.2 = Ret tt
        /\ spawned r.1 = (fun item => GoDispatchToStreamFn sfn item next) <$> items
        /\ sends r.1 = [])
  /\ (forall (upstream : list (Select DataFrame)) (sessions : list quic.Session)
             (rest : list (Select quic.Session))
             (sfn : GetStreamFunc) (next : Chan) (d : Directory),
        let p := pipeStreamFn_go upstream
                   (fun _ => (SelRecv <$> sessions) ++ SelDone :: rest) sfn next d in
        (pipe_receive p).2 = Ret tt
        /\ spawned (pipe_receive p).1
           = (fun conn => GoAcceptLoop (sfn tt).1 conn next) <$> omap id sessions
        /\ closes (pipe_receive p).1 = [next]
        /\ last (pipe_receive p).1 = Some (EvChanClose next)
        /\ sends (pipe_receive p).1 = [])
  /\ (forall (st : ChanStatus) (name : string) (ks : list N)
             (rest : quic.ReceiveStream) (next : Chan),
        let r := readDataFromStreamFn NewSpanFromData st (cancelledAt (length ks)) name
                   (control_frames ks ++ rest) next in
        r.2 = Ret tt /\ sends r.1 = [] /\ parsed r.1 = control_frames ks)
  /\ (forall (frames : list Frame) (j : nat) (next : Chan),
        let r := readDataFromSource (cancelledAt (S (length frames + j)))
                   (quic.ParseOk <$> frames) next in
        r.2 = Block
        /\ closes r.1 = []
        /\ parsed r.1 = quic.ParseOk <$> frames).
Proof.
  split; [|split; [|split; [|split]]].
  - intros frames rest next r. subst r. unfold readDataFromSource.
    destruct (defer_close
                (sourceLoop (cancelledAt (length frames)) 0
                   ((quic.ParseOk <$> frames) ++ rest) next) next)
      as (Ho & Hs & Hp & _ & Hc).
    destruct (sourceLoop_cancelled frames rest next 0) as (Hr & Hq).
    destruct (sourceLoop_trace (cancelledAt (length frames))
                ((quic.ParseOk <$> frames) ++ rest) next 0) as (Ts & _ & _ & Tc & _).
    cbn [Nat.add] in Hr, Hq.
    rewrite Ho, Hs, Hp, Hc, Ts, Tc, Hr, Hq, data_frames_ok. done.
  - intros items rest sfn next r. subst r.
    destruct (pipeStreamFn_send_trace ((SelRecv <$> items) ++ SelDone :: rest) sfn next)
      as (Ht & Ho).
    destruct (taken_items_until_done items rest) as (Hi & He).
    rewrite Ho, Ht, He, Hi.
    destruct (go_only_trace ((fun item => GoDispatchToStreamFn sfn item next) <$> items))
      as (Hs & Hn & _).
    by rewrite Hs, Hn.
  - intros upstream sessions rest sfn next d p. subst p.
    rewrite pipe_receive_trace. cbn [fst snd].
    destruct (live_sessions_until_done sessions rest) as (Hl & He).
    rewrite He, Hl.
    destruct (go_only_trace
                ((fun conn => GoAcceptLoop (sfn tt).1 conn next) <$> omap id sessions))
      as (Hs & Hn & Hc & _).
    unfold spawned, closes, sends in *. rewrite !omap_app, Hs, Hn, Hc, last_snoc.
    cbn. by rewrite app_nil_r.
  - intros st name ks rest next r. subst r. unfold readDataFromStreamFn.
    destruct (readLoop_cancelled NewSpanFromData st name ks rest next 0)
      as (Hr & Hs & _ & Hp).
    done.
  - intros frames j next r. subst r. unfold readDataFromSource.
    destruct (defer_close
                (sourceLoop (cancelledAt (S (length frames + j))) 0
                   (quic.ParseOk <$> frames) next) next)
      as (Ho & _ & Hp & _ & Hc).
    destruct (sourceLoop_late_cancel frames next j 0) as (Hr & Hq & Hcl).
    cbn [Nat.add] in Hr, Hq, Hcl.
    rewrite Ho, Hp, Hc, Hr, Hq, Hcl. done.
Qed.

(** C8 as stated fails: the context is cancelled after the first poll of
    the source reader, while the reader is in its first read, and the
    stream delivers nothing more: the reader never returns and its output
    channel is never closed. *)
Lemma readDataFromSource_read_not_interrupted :
  cancelledAt 1 1 = true
  /\ readDataFromSource (cancelledAt 1) [] 1 = ([], Block)
  /\ ~ closes_when_cancelled (cancelledAt 1) [] 1.
Proof.
  repeat split.
  unfold closes_when_cancelled. intros H.
  destruct H as [H _]; [by exists 1|]. discriminate.
Qed.
